(** * overseerr-mcp: the request-aggregation pipeline of [server.py]

    A shallow embedding of [src/archive/server.py] and the properties its
    specification states about it.

    The server talks to an Overseerr backend over HTTP and reshapes the JSON
    it gets back.  The embedding therefore has three layers:

    - [json]: the values [response.json()] produces, with the handful of
      Python operations the server applies to them ([.get], [in], truth
      value, [for ... in], [==], [<=], [str()], the [:02d] format), each
      with the exception Python raises when the value has the wrong shape;
    - [M]: sequential state passing over the backend's state and the log of
      URLs requested, with Python exceptions and a fuel bound for the
      [while has_more] loop;
    - the server's functions, under the names they have in the source.

    [format_media_request_list] (lines 35-49) is called by no
    operation.  Numbers are integers: the fields the server reads
    ([tmdbId], [tvdbId], [status], [seasonNumber], [episodeNumber],
    [pages]) are integer fields of the backend's contract, and non-integer
    JSON numbers are outside this model.  Strings are sequences of bytes
    (UTF-8), on which the byte-wise lexicographic order agrees with
    Python's order on code points. *)

From Stdlib Require Import String Ascii ZArith List Bool Lia.
From Stdlib Require Import DecimalString DecimalZ.
Import ListNotations.

Local Open Scope string_scope.
Local Open Scope Z_scope.

(** ** JSON values *)

Set Warnings "-register-all".

(** A [JObj] lists the items of a Python [dict] in iteration order; the keys
    of a dict are distinct, and lookup takes the first binding. *)
Inductive json : Type :=
| JNull
| JBool (b : bool)
| JNum (z : Z)
| JStr (s : string)
| JArr (items : list json)
| JObj (fields : list (string * json)).

(** ** Python exceptions and outcomes *)

Inductive exn : Type :=
| TypeError
| AttributeError
| ValueError
| KeyError.

(** What running a piece of the server yields: a value, an exception that
    propagates to the caller, or [OutOfFuel] when the bound on the number of
    pages fetched is exhausted. *)
Inductive outcome (A : Type) : Type :=
| Ret (a : A)
| Raise (e : exn)
| OutOfFuel.

Arguments Ret {A} a.
Arguments Raise {A} e.
Arguments OutOfFuel {A}.

Definition omap {A B : Type} (f : A -> B) (o : outcome A) : outcome B :=
  match o with
  | Ret a => Ret (f a)
  | Raise e => Raise e
  | OutOfFuel => OutOfFuel
  end.

(** ** Python operations on JSON values *)

Module Py.

Definition nl : string := String (ascii_of_nat 10) EmptyString.

(** [sep.join(parts)] *)
Fixpoint join (sep : string) (parts : list string) : string :=
  match parts with
  | [] => ""
  | [p] => p
  | p :: rest => p ++ sep ++ join sep rest
  end.

(** [str(n)] for an integer. *)
Definition dec (z : Z) : string := NilZero.string_of_int (Z.to_int z).

(** [f"{n:02d}"] for an integer: the sign counts in the width. *)
Definition pad2 (z : Z) : string :=
  if (0 <=? z) && (z <? 10) then "0" ++ dec z else dec z.

Definition int_of_bool (b : bool) : Z := if b then 1 else 0.

(** [bool(v)] *)
Definition truthy (v : json) : bool :=
  match v with
  | JNull => false
  | JBool b => b
  | JNum z => negb (z =? 0)
  | JStr s => negb (s =? "")%string
  | JArr items => match items with [] => false | _ => true end
  | JObj fields => match fields with [] => false | _ => true end
  end.

Fixpoint dict_get (fields : list (string * json)) (key : string)
  : option json :=
  match fields with
  | [] => None
  | (k, v) :: rest => if (k =? key)%string then Some v else dict_get rest key
  end.

Definition field_or (fields : list (string * json)) (key : string)
  (default : json) : json :=
  match dict_get fields key with
  | Some x => x
  | None => default
  end.

(** [v.get(key, default)]: only a dict has the method. *)
Definition get (v : json) (key : string) (default : json) : outcome json :=
  match v with
  | JObj fields => Ret (field_or fields key default)
  | _ => Raise AttributeError
  end.

Definition is_str (key : string) (v : json) : bool :=
  match v with
  | JStr s => (s =? key)%string
  | _ => false
  end.

(** [key in v] for a string [key]: key membership on a dict, element
    membership on a list, substring test on a string. *)
Definition contains (key : string) (v : json) : outcome bool :=
  match v with
  | JObj fields =>
      Ret (match dict_get fields key with Some _ => true | None => false end)
  | JArr items => Ret (existsb (is_str key) items)
  | JStr s =>
      Ret (match index 0 key s with Some _ => true | None => false end)
  | _ => Raise TypeError
  end.

(** [v[key]] for a string [key]. *)
Definition getitem (v : json) (key : string) : outcome json :=
  match v with
  | JObj fields =>
      match dict_get fields key with
      | Some x => Ret x
      | None => Raise KeyError
      end
  | _ => Raise TypeError
  end.

(** [v[a:b]] with strings [a] and [b], as in [data["url": url]].  The key
    is a [slice] object.  On a dict it is hashed first: a slice is
    unhashable before Python 3.12 ([TypeError]); from 3.12 on it hashes,
    and is not among the string keys ([KeyError]).  On a list or a string
    the slice bounds must be integers ([TypeError]); nothing else is
    subscriptable.  No case returns. *)
Definition getitem_slice (slice_hashable : bool) (v : json) : outcome json :=
  match v with
  | JObj _ => Raise (if slice_hashable then KeyError else TypeError)
  | _ => Raise TypeError
  end.

(** [v.items()] *)
Definition items (v : json) : outcome (list (string * json)) :=
  match v with
  | JObj fields => Ret fields
  | _ => Raise AttributeError
  end.

Fixpoint chars (s : string) : list json :=
  match s with
  | EmptyString => []
  | String c rest => JStr (String c EmptyString) :: chars rest
  end.

(** The elements [for x in v] visits: those of a list, the keys of a
    dict, the characters of a string. *)
Definition iter (v : json) : outcome (list json) :=
  match v with
  | JArr items => Ret items
  | JObj fields => Ret (map (fun kv => JStr (fst kv)) fields)
  | JStr s => Ret (chars s)
  | _ => Raise TypeError
  end.

(** [v == 0]: [False == 0] holds in Python. *)
Definition eq_zero (v : json) : bool :=
  match v with
  | JNum z => z =? 0
  | JBool b => negb b
  | _ => false
  end.

(** [v <= n] for an integer [n]. *)
Definition le_int (v : json) (n : Z) : outcome bool :=
  match v with
  | JNum z => Ret (z <=? n)
  | JBool b => Ret (int_of_bool b <=? n)
  | _ => Raise TypeError
  end.

(** [f"{v:02d}"] *)
Definition format_02d (v : json) : outcome string :=
  match v with
  | JNum z => Ret (pad2 z)
  | JBool b => Ret (pad2 (int_of_bool b))
  | JStr _ => Raise ValueError
  | _ => Raise TypeError
  end.

(** [a > b] on strings. *)
Definition str_gt (a b : string) : bool :=
  match String.compare a b with
  | Gt => true
  | _ => false
  end.

(** [a > v] for a string [a]. *)
Definition gt_str (a : string) (v : json) : outcome bool :=
  match v with
  | JStr b => Ret (str_gt a b)
  | _ => Raise TypeError
  end.

Definition lower_ascii (c : ascii) : ascii :=
  let n := nat_of_ascii c in
  if ((65 <=? n) && (n <=? 90))%nat then ascii_of_nat (n + 32) else c.

(** [s.lower()].  The server lowers a status only after it was found in
    [valid_statuses], so the argument is always ASCII. *)
Fixpoint lower (s : string) : string :=
  match s with
  | EmptyString => EmptyString
  | String c rest => String (lower_ascii c) (lower rest)
  end.

(** [d.get(code, default)] on a dict with integer keys [1..5], as
    [media_status_mapping.get]: the key is hashed before it is looked up,
    so a list or a dict raises; [True] is the key [1]. *)
Definition int_key (v : json) : outcome (option Z) :=
  match v with
  | JNum z => Ret (Some z)
  | JBool b => Ret (Some (int_of_bool b))
  | JNull | JStr _ => Ret None
  | JArr _ | JObj _ => Raise TypeError
  end.

End Py.

(** ** The environment of a run *)

(** What the server reads from outside: the process configuration
    [OVERSEERR_URL], and the backend behind [httpx]'s [client.get].  A
    request either raises inside the [try] of [make_overseerr_request]
    (network error, non-2xx status, body that is not JSON), with [str(err)]
    as the message, or yields the parsed body; the backend may change state
    with every request.  [py_repr] is [str()] of a list or a dict, which the
    server only ever splices into strings; [slice_hashable] tells whether
    the interpreter is Python 3.12 or later. *)
Record Env : Type := {
  St : Type;
  http_get : string -> St -> (string + json) * St;
  overseerr_url : string;
  py_repr : json -> string;
  slice_hashable : bool
}.

(** The state threaded through a run: the backend's state and the URLs
    requested so far, oldest first. *)
Definition world (E : Env) : Type := (St E * list string)%type.

Definition M (E : Env) (A : Type) : Type := world E -> outcome A * world E.

Definition ret {E : Env} {A : Type} (a : A) : M E A :=
  fun w => (Ret a, w).

Definition bind {E : Env} {A B : Type} (m : M E A) (f : A -> M E B) : M E B :=
  fun w =>
    match m w with
    | (Ret a, w') => f a w'
    | (Raise e, w') => (Raise e, w')
    | (OutOfFuel, w') => (OutOfFuel, w')
    end.

(** A pure Python operation inside a run. *)
Definition lift {E : Env} {A : Type} (o : outcome A) : M E A :=
  fun w => (o, w).

(** What [make_overseerr_request] returns for the outcome of the request:
    the parsed body, or the error dict built in its [except] clause. *)
Definition response_value (r : string + json) : json :=
  match r with
  | inr body => body
  | inl msg => JObj [("Request Error", JStr msg)]
  end.

(** The world once [url] has been requested in [w] and the backend has
    moved to [s']. *)
Definition requested {E : Env} (w : world E) (url : string) (s' : St E)
  : world E :=
  (s', (snd w ++ [url])%list).

Notation "x <- m ;; k" := (bind m (fun x => k))
  (at level 61, m at next level, right associativity).

(** [for x in xs: body(x)], where the body appends to a result list. *)
Fixpoint for_each {E : Env} {A B : Type} (body : A -> M E (list B))
  (xs : list A) : M E (list B) :=
  match xs with
  | [] => ret []
  | x :: rest =>
      out <- body x ;;
      outs <- for_each body rest ;;
      ret (out ++ outs)%list
  end.

(** ** The server *)

Section Server.

Variable E : Env.

(** [str(v)], as an f-string renders a value. *)
Definition py_str (v : json) : string :=
  match v with
  | JNull => "None"
  | JBool true => "True"
  | JBool false => "False"
  | JNum z => Py.dec z
  | JStr s => s
  | JArr _ | JObj _ => py_repr E v
  end.

(** server.py, lines 20-32.  Every exception of the request is caught and
    turned into the dict [{"Request Error": str(err)}]. *)
Definition make_overseerr_request (url : string) : M E json :=
  fun w =>
    let (r, s') := http_get E url (fst w) in
    (Ret (response_value r), requested w url s').

(** [[f"{key}: {val}" for key, val in data.items()]] *)
Definition status_lines (fields : list (string * json)) : list string :=
  map (fun kv => fst kv ++ ": " ++ py_str (snd kv)) fields.

(** The body shared, word for word, by [get_overseerr_status] (lines
    58-69) and [get_overseerr_unavailable_tv_requests] (lines 174-185). *)
Definition status_report : M E string :=
  let url := overseerr_url E ++ "/api/v1/status" in
  data <- make_overseerr_request url ;;
  has_version <- lift (Py.contains "version" data) ;;
  if has_version : bool then
    let status_response :=
      Py.nl ++ "---" ++ Py.nl
        ++ "Overseerr is available and these are the status data:" in
    fields <- lift (Py.items data) ;;
    ret (status_response ++ Py.nl ++ "- "
           ++ Py.join (Py.nl ++ "- ") (status_lines fields))
  else
    let status_response :=
      Py.nl ++ "---" ++ Py.nl
        ++ "Overseerr is not available and below is the request error: " in
    _ <- lift (Py.getitem_slice (slice_hashable E) data) ;;
    fields <- lift (Py.items data) ;;
    ret (status_response ++ Py.nl ++ "- "
           ++ Py.join (Py.nl ++ "- ") (status_lines fields)).

Definition get_overseerr_status : M E string := status_report.

Definition get_overseerr_unavailable_tv_requests : M E string :=
  status_report.

(** Lines 71-74. *)
Definition movie_url (movie_id : json) : string :=
  overseerr_url E ++ "/api/v1/movie/" ++ py_str movie_id.

Definition get_movie_details (movie_id : json) : M E json :=
  make_overseerr_request (movie_url movie_id).

(** Lines 188-191. *)
Definition tv_url (tv_id : json) : string :=
  overseerr_url E ++ "/api/v1/tv/" ++ py_str tv_id.

Definition get_tv_details (tv_id : json) : M E json :=
  make_overseerr_request (tv_url tv_id).

(** Lines 194-197. *)
Definition season_url (tv_id season_id : json) : string :=
  overseerr_url E ++ "/api/v1/tv/" ++ py_str tv_id
    ++ "/season/" ++ py_str season_id.

Definition get_season_details (tv_id season_id : json) : M E json :=
  make_overseerr_request (season_url tv_id season_id).

(** Lines 93-99 and 226-232, with the [.get(code, "UNKNOWN")] of lines
    149 and 283. *)
Definition media_status_mapping (code : Z) : option string :=
  match code with
  | 1 => Some "UNKNOWN"
  | 2 => Some "PENDING"
  | 3 => Some "PROCESSING"
  | 4 => Some "PARTIALLY_AVAILABLE"
  | 5 => Some "AVAILABLE"
  | _ => None
  end.

Definition media_status_mapping_get (code : json) : outcome string :=
  match Py.int_key code with
  | Ret (Some z) =>
      Ret (match media_status_mapping z with
           | Some label => label
           | None => "UNKNOWN"
           end)
  | Ret None => Ret "UNKNOWN"
  | Raise e => Raise e
  | OutOfFuel => OutOfFuel
  end.

(** Lines 102-104 and 235-237. *)
Definition valid_statuses : list string :=
  ["all"; "approved"; "available"; "pending"; "processing"; "unavailable";
   "failed"].

Definition str_truthy (s : string) : bool := negb (s =? "")%string.

Definition validate_status (status : option string) : option string :=
  match status with
  | Some s =>
      if str_truthy s && negb (existsb (String.eqb s) valid_statuses)
      then None
      else Some s
  | None => None
  end.

Definition take : Z := 20.

(** Lines 116-122 and 249-255: the [params] dict and the URL built from
    it.  [status] is the value left by the validation above. *)
Definition params (status : option string) (skip : Z)
  : list (string * json) :=
  ([("take", JNum take); ("skip", JNum skip); ("sort", JStr "added")]
     ++ match status with
        | Some s => if str_truthy s then [("filter", JStr (Py.lower s))]
                    else []
        | None => []
        end)%list.

Definition query_string (status : option string) (skip : Z) : string :=
  Py.join "&"
    (map (fun kv => fst kv ++ "=" ++ py_str (snd kv)) (params status skip)).

Definition request_url (status : option string) (skip : Z) : string :=
  overseerr_url E ++ "/api/v1/request?" ++ query_string status skip.

(** [start_date and start_date > created_at], lines 141 and 274. *)
Definition date_filter (start_date : option string) (created_at : json)
  : outcome bool :=
  match start_date with
  | Some s => if str_truthy s then Py.gt_str s created_at else Ret false
  | None => Ret false
  end.

(** Lines 139-158: what [get_movie_requests] does with a result it took
    for a movie; the list returned is what the iteration appends to
    [all_results]. *)
Definition movie_request (start_date : option string)
  (result media_info : json) : M E (list json) :=
  created_at <- lift (Py.get result "createdAt" (JStr "")) ;;
  too_old <- lift (date_filter start_date created_at) ;;
  if too_old : bool then ret [] else
  movie_id <- lift (Py.get media_info "tmdbId" JNull) ;;
  movie_details <- get_movie_details movie_id ;;
  media_status_code <- lift (Py.get media_info "status" (JNum 1)) ;;
  media_availability <- lift (media_status_mapping_get media_status_code) ;;
  title <- lift (Py.get movie_details "title" (JStr "Unknown Title")) ;;
  ret [JObj [("title", title);
             ("media_availability", JStr media_availability);
             ("request_date", created_at)]].

(** Lines 135-158: the body of [for result in results] in
    [get_movie_requests], with the test of line 138. *)
Definition movie_result (start_date : option string) (result : json)
  : M E (list json) :=
  media_info <- lift (Py.get result "media" (JObj [])) ;;
  if negb (Py.truthy media_info) then ret [] else
  tmdb <- lift (Py.get media_info "tmdbId" JNull) ;;
  if negb (Py.truthy tmdb) then ret [] else
  tvdb <- lift (Py.get media_info "tvdbId" JNull) ;;
  if Py.truthy tvdb then ret [] else
  movie_request start_date result media_info.

(** Lines 310-315: one episode of a season. *)
Definition episode_entry (episode : json) : M E (list json) :=
  episode_number <- lift (Py.get episode "episodeNumber" (JNum 0)) ;;
  number_str <- lift (Py.format_02d episode_number) ;;
  name <- lift (Py.get episode "name"
                  (JStr ("Episode " ++ py_str episode_number))) ;;
  ret [JObj [("episode_number", JStr number_str);
             ("episode_name", name)]].

(** Lines 290-327: the body of [for season in seasons]. *)
Definition season_result (tv_id tv_details : json)
  (tv_title_availability : string) (created_at : json) (season : json)
  : M E (list json) :=
  season_number <- lift (Py.get season "seasonNumber" (JNum 0)) ;;
  if Py.eq_zero season_number then ret [] else
  number_str <- lift (Py.format_02d season_number) ;;
  let season_str := "S" ++ number_str in
  season_details <- get_season_details tv_id season_number ;;
  let tv_season_availability := tv_title_availability in
  episodes <- lift (Py.get season_details "episodes" (JArr [])) ;;
  episode_list <- lift (Py.iter episodes) ;;
  episode_details <- for_each episode_entry episode_list ;;
  tv_title <- lift (Py.get tv_details "name" (JStr "Unknown TV Show")) ;;
  ret [JObj [("tv_title", tv_title);
             ("tv_title_availability", JStr tv_title_availability);
             ("tv_season", JStr season_str);
             ("tv_season_availability", JStr tv_season_availability);
             ("tv_episodes", JArr episode_details);
             ("request_date", created_at)]].

(** Lines 272-327: what [get_tv_requests] does with a result it took
    for a TV show. *)
Definition tv_request (start_date : option string)
  (result media_info : json) : M E (list json) :=
  created_at <- lift (Py.get result "createdAt" (JStr "")) ;;
  too_old <- lift (date_filter start_date created_at) ;;
  if too_old : bool then ret [] else
  tv_id <- lift (Py.get media_info "tmdbId" JNull) ;;
  tv_details <- get_tv_details tv_id ;;
  media_status_code <- lift (Py.get media_info "status" (JNum 1)) ;;
  tv_title_availability <-
    lift (media_status_mapping_get media_status_code) ;;
  seasons <- lift (Py.get tv_details "seasons" (JArr [])) ;;
  season_list <- lift (Py.iter seasons) ;;
  for_each (season_result tv_id tv_details tv_title_availability created_at)
    season_list.

(** Lines 268-327: the body of [for result in results] in
    [get_tv_requests], with the test of line 271. *)
Definition tv_result (start_date : option string) (result : json)
  : M E (list json) :=
  media_info <- lift (Py.get result "media" (JObj [])) ;;
  if negb (Py.truthy media_info) then ret [] else
  tvdb <- lift (Py.get media_info "tvdbId" JNull) ;;
  if negb (Py.truthy tvdb) then ret [] else
  tv_request start_date result media_info.

(** Lines 114-167 and 247-336: the [while has_more] loop, which the two
    operations share word for word around their per-result body
    [per_result].  [fuel] bounds the number of pages fetched. *)
Fixpoint request_loop (per_result : option string -> json -> M E (list json))
  (fuel : nat) (status start_date : option string) (skip : Z)
  (all_results : list json) : M E (list json) :=
  match fuel with
  | O => lift OutOfFuel
  | S fuel' =>
      response <- make_overseerr_request (request_url status skip) ;;
      failed <- lift (Py.contains "Request Error" response) ;;
      if failed : bool then
        message <- lift (Py.getitem response "Request Error") ;;
        ret [JObj [("error", message)]]
      else
        results <- lift (Py.get response "results" (JArr [])) ;;
        result_list <- lift (Py.iter results) ;;
        new_results <- for_each (per_result start_date) result_list ;;
        page_info <- lift (Py.get response "pageInfo" (JObj [])) ;;
        pages <- lift (Py.get page_info "pages" (JNum 0)) ;;
        last <- lift (Py.le_int pages (skip / take + 1)) ;;
        if last : bool then ret (all_results ++ new_results)%list
        else request_loop per_result fuel' status start_date (skip + take)
               (all_results ++ new_results)%list
  end.

(** Lines 76-167. *)
Definition get_movie_requests (status start_date : option string)
  (fuel : nat) : M E (list json) :=
  request_loop movie_result fuel (validate_status status) start_date 0 [].

(** Lines 200-336. *)
Definition get_tv_requests (status start_date : option string)
  (fuel : nat) : M E (list json) :=
  request_loop tv_result fuel (validate_status status) start_date 0 [].

(** Lines 35-49.  The helper builds [formatted_list], one deep copy of the
    empty [new_item] for each request, and ends without a [return]: the
    caller gets [None].  The mapper dict of lines 37-43 is not read. *)
Definition format_media_request_list (media_requests : json) : M E json :=
  items <- lift (Py.iter media_requests) ;;
  formatted_list <- for_each (fun _ : json => ret [JObj []]) items ;;
  ret JNull.

End Server.

(** ** Vocabulary of the specification *)

(** The fields of a raw request the pipeline reads, with the defaults the
    server gives them. *)
Definition created_at_of (fields : list (string * json)) : json :=
  Py.field_or fields "createdAt" (JStr "").

Definition status_of (media : list (string * json)) : json :=
  Py.field_or media "status" (JNum 1).

Definition id_of (media : list (string * json)) (key : string) : json :=
  Py.field_or media key JNull.

(** An identifier is set when the media object has it with a value Python
    takes for true: present, not [null], not [0]. *)
Definition has_id (media : list (string * json)) (key : string) : bool :=
  Py.truthy (id_of media key).

(** A field of a summary. *)
Definition field (summary : json) (key : string) : option json :=
  match summary with
  | JObj fields => Py.dict_get fields key
  | _ => None
  end.

(** A summary that is not one of season 0, whose label would be [S00]. *)
Definition not_special (summary : json) : Prop :=
  field summary "tv_season" <> Some (JStr "S00").

(** A summary whose availability under [key] is [UNKNOWN]. *)
Definition unknown_availability (key : string) (summary : json) : Prop :=
  field summary key = Some (JStr "UNKNOWN").

(** The date filter as the specification words it: a start date is
    supplied and is lexicographically greater than [createdAt]. *)
Definition excluded_by_date (start_date : option string) (created_at : string)
  : bool :=
  match start_date with
  | Some s =>
      match String.compare s created_at with
      | Gt => true
      | _ => false
      end
  | None => false
  end.

(** The requests that list a page of results. *)
Definition is_page_url (E : Env) (url : string) : bool :=
  prefix (overseerr_url E ++ "/api/v1/request?") url.

Definition page_calls (E : Env) (log : list string) : list string :=
  filter (is_page_url E) log.

(** A page of the request list as the backend contract has it: an object
    without the error key, whose [results] (a list when present) are
    [results] and whose [pageInfo.pages] is the integer [pages]. *)
Definition page_reports (body : list (string * json)) (results : list json)
  (pages : Z) : Prop :=
  Py.dict_get body "Request Error" = None
  /\ Py.field_or body "results" (JArr []) = JArr results
  /\ exists page_info,
       Py.dict_get body "pageInfo" = Some (JObj page_info)
       /\ Py.dict_get page_info "pages" = Some (JNum pages).

(** Page [k] of a run is fetched and processed without exception and
    reports [pages] pages, whatever the state it is requested in. *)
Definition page_served (E : Env)
  (per_result : option string -> json -> M E (list json))
  (status start_date : option string) (k : nat) (pages : Z) : Prop :=
  forall w : world E,
  exists body results s',
    http_get E (request_url E status (take * Z.of_nat k)) (fst w)
      = (inr (JObj body), s')
    /\ page_reports body results pages
    /\ exists out w',
         for_each (per_result start_date) results
           (requested w (request_url E status (take * Z.of_nat k)) s')
         = (Ret out, w').

(** A raw request that leaves no trace in a loop over results: with or
    without it, the loop returns the same summaries and requests the same
    URLs. *)
Definition dropped_by {E : Env}
  (per_result : option string -> json -> M E (list json))
  (fields : list (string * json)) : Prop :=
  forall start_date before after w,
    for_each (per_result start_date) (before ++ JObj fields :: after) w
    = for_each (per_result start_date) (before ++ after) w.

(** The fetch of page [k] fails with [msg], whatever the state. *)
Definition page_fails (E : Env) (status : option string) (k : nat)
  (msg : string) : Prop :=
  forall w : world E,
  exists s',
    http_get E (request_url E status (take * Z.of_nat k)) (fst w)
      = (inl msg, s').

(** The URLs of the first [n] pages. *)
Definition page_urls (E : Env) (status : option string) (k n : nat)
  : list string :=
  map (fun j => request_url E status (take * Z.of_nat j)) (seq k n).

(** Prepending the output of one iteration to the run of the rest. *)
Definition and_then {E : Env} {B : Type} (out : list B)
  (r : outcome (list B) * world E) : outcome (list B) * world E :=
  (omap (app out) (fst r), snd r).

(** Every summary a computation returns satisfies [P]. *)
Definition yields {E : Env} {B : Type} (P : B -> Prop) (m : M E (list B))
  : Prop :=
  forall w out w1, m w = (Ret out, w1) -> Forall P out.

(** A computation that requests no page of the request list. *)
Definition enriches {E : Env} {A : Type} (m : M E A) : Prop :=
  forall w, page_calls E (snd (snd (m w))) = page_calls E (snd w).

(** ** Sample backends

    Backends that answer from a fixed table of URLs, used to run the server
    on the scenarios of the specification. *)

Module Sample.

Definition base : string := "http://overseerr.local".

Fixpoint lookup (table : list (string * json)) (url : string)
  : string + json :=
  match table with
  | [] => inl "All connection attempts failed"
  | (u, body) :: rest =>
      if (u =? url)%string then inr body else lookup rest url
  end.

(** A stateless backend: a URL of the table yields its body, any other
    request fails. *)
Definition serve (table : list (string * json)) : Env :=
  {| St := unit;
     http_get := fun url s => (lookup table url, s);
     overseerr_url := base;
     py_repr := fun _ => "<repr>";
     slice_hashable := false |}.

(** No request made yet. *)
Definition start : unit * list string := (tt, []).

Definition page (results : list json) (pages : Z) : json :=
  JObj [("pageInfo", JObj [("pages", JNum pages)]);
        ("results", JArr results)].

Definition request (media : list (string * json)) (created_at : string)
  : json :=
  JObj [("media", JObj media); ("createdAt", JStr created_at)].

Definition page_url (skip : string) : string :=
  base ++ "/api/v1/request?take=20&skip=" ++ skip ++ "&sort=added".

(** The backend is unreachable. *)
Definition down : Env := serve [].

(** The backend answers the status request. *)
Definition up : Env :=
  serve [(base ++ "/api/v1/status",
          JObj [("version", JStr "1.33.2"); ("commitsBehind", JNum 0)])].

(** One movie request, as in the end-to-end scenario of the
    specification. *)
Definition dune_request : json :=
  request [("tmdbId", JNum 42); ("status", JNum 5)]
    "2022-03-01T00:00:00.000Z".

Definition movies : Env :=
  serve [(page_url "0", page [dune_request] 1);
         (base ++ "/api/v1/movie/42", JObj [("title", JStr "Dune")])].

(** One TV request, as in the end-to-end scenario of the specification:
    both identifiers are set. *)
Definition show_request : json :=
  request [("tmdbId", JNum 7); ("tvdbId", JNum 121361)]
    "2022-03-01T00:00:00.000Z".

Definition show_details : json :=
  JObj [("name", JStr "Show");
        ("seasons", JArr [JObj [("seasonNumber", JNum 0)];
                          JObj [("seasonNumber", JNum 1)]])].

Definition shows : Env :=
  serve [(page_url "0", page [show_request] 1);
         (base ++ "/api/v1/tv/7", show_details);
         (base ++ "/api/v1/tv/7/season/1",
          JObj [("episodes",
                 JArr [JObj [("episodeNumber", JNum 1);
                             ("name", JStr "Pilot")]])])].

(** Three pages of requests; the movie lookups fail. *)
Definition old_request : json :=
  request [("tmdbId", JNum 11)] "2020-12-31T23:59:59.000Z".

Definition new_request : json :=
  request [("tmdbId", JNum 12); ("status", JNum 3)]
    "2021-06-01T00:00:00.000Z".

Definition three_pages : Env :=
  serve [(page_url "0", page [old_request] 3);
         (page_url "20", page [show_request; new_request] 3);
         (page_url "40", page [] 3)].

(** The same backend when the second page cannot be fetched. *)
Definition second_page_fails : Env :=
  serve [(page_url "0", page [old_request] 3);
         (page_url "40", page [] 3)].

(** A backend whose request list is not the object of the contract. *)
Definition malformed : Env := serve [(page_url "0", JArr [])].

End Sample.

(** ** Vocabulary of the further properties *)

(** The five availability labels of [media_status_mapping]. *)
Definition labels : list string :=
  ["UNKNOWN"; "PENDING"; "PROCESSING"; "PARTIALLY_AVAILABLE"; "AVAILABLE"].

(** The list an operation returns when a page could not be fetched. *)
Definition is_error_result (out : list json) : Prop :=
  exists message, out = [JObj [("error", message)]].

(** The dict of lines 152-156. *)
Definition movie_summary (summary : json) : Prop :=
  exists title availability date,
    summary = JObj [("title", title);
                    ("media_availability", JStr availability);
                    ("request_date", date)]
    /\ In availability labels.

(** The dict of lines 312-315. *)
Definition episode_record (episode : json) : Prop :=
  exists number name,
    episode = JObj [("episode_number", JStr number); ("episode_name", name)].

(** The dict of lines 318-325. *)
Definition tv_summary (summary : json) : Prop :=
  exists title availability digits episodes date,
    summary = JObj [("tv_title", title);
                    ("tv_title_availability", JStr availability);
                    ("tv_season", JStr ("S" ++ digits));
                    ("tv_season_availability", JStr availability);
                    ("tv_episodes", JArr episodes);
                    ("request_date", date)]
    /\ In availability labels
    /\ Forall episode_record episodes.

(** A summary whose request date is a string that [start_date] does not
    exceed. *)
Definition not_before (start_date : string) (summary : json) : Prop :=
  exists created_at,
    field summary "request_date" = Some (JStr created_at)
    /\ Py.str_gt start_date created_at = false.

(** A URL under a prefix. *)
Definition under (p url : string) : Prop := exists rest, url = p ++ rest.

(** A computation whose requests, appended to the log, all satisfy [P]. *)
Definition touches {E : Env} {A : Type} (P : string -> Prop) (m : M E A)
  : Prop :=
  forall w,
  exists extra, snd (snd (m w)) = (snd w ++ extra)%list /\ Forall P extra.

(** [int(s)] for a decimal string. *)
Definition parse_int (s : string) : option Z :=
  option_map Z.of_int (NilZero.int_of_string s).

(** From every state satisfying [Inv k], page [k] is fetched and processed
    without exception, reports more pages than [k + 1], and leaves a state
    satisfying [Inv (k + 1)]. *)
Definition always_more (E : Env)
  (per_result : option string -> json -> M E (list json))
  (status start_date : option string) (Inv : nat -> world E -> Prop) : Prop :=
  forall k w,
    Inv k w ->
    exists body results s' pages out w1,
      http_get E (request_url E status (take * Z.of_nat k)) (fst w)
        = (inr (JObj body), s')
      /\ page_reports body results pages
      /\ Z.of_nat k + 1 < pages
      /\ for_each (per_result start_date) results
           (requested w (request_url E status (take * Z.of_nat k)) s')
         = (Ret out, w1)
      /\ Inv (S k) w1.

(** The season lookup of season [number] answers, in every state, with an
    error or with a body whose episodes are formatted without exception. *)
Definition season_served (E : Env) (tv_id : json) (number : Z) : Prop :=
  forall w : world E,
  exists r s' episodes episode_list episode_details,
    http_get E (season_url E tv_id (JNum number)) (fst w) = (r, s')
    /\ Py.get (response_value r) "episodes" (JArr []) = Ret episodes
    /\ Py.iter episodes = Ret episode_list
    /\ fst (for_each (episode_entry E) episode_list
              (requested w (season_url E tv_id (JNum number)) s'))
       = Ret episode_details.

(** The season labels of a list of summaries. *)
Definition season_labels (out : list json) : list (option json) :=
  map (fun summary => field summary "tv_season") out.

(** The labels the seasons numbered [numbers] are to get: none for a
    season 0. *)
Definition expected_labels (numbers : list Z) : list (option json) :=
  map (fun n => Some (JStr ("S" ++ Py.pad2 n)))
    (filter (fun n => negb (n =? 0)) numbers).

(** A backend that counts its requests and reports, at each of them, two
    pages more than it has served. *)
Definition endless : Env :=
  {| St := nat;
     http_get := fun url n =>
       (inr (JObj [("pageInfo", JObj [("pages", JNum (Z.of_nat n + 2))]);
                   ("results", JArr [])]),
        S n);
     overseerr_url := "http://overseerr.local";
     py_repr := fun _ => "<repr>";
     slice_hashable := true |}.

(** A backend whose request list answers with an error object of its own. *)
Definition in_band_error : Env :=
  Sample.serve
    [(Sample.page_url "0",
      JObj [("Request Error", JStr "maintenance");
            ("results", JArr [Sample.dune_request])])].

(** A backend with a TV request that has no [tmdbId]. *)
Definition no_tmdb_request : json :=
  Sample.request [("tvdbId", JNum 121361)] "2022-03-01T00:00:00.000Z".

(** The number of detail lookups in a log: the requests that are not for a
    page of the request list. *)
Definition lookups (E : Env) (log : list string) : nat :=
  length (filter (fun url => negb (is_page_url E url)) log).

(** How many more lookups a run from [w] to [w1] made than the [n]
    summaries it returned. *)
Definition slack {E : Env} (w w1 : world E) (n : nat) : Z :=
  Z.of_nat (lookups E (snd w1)) - Z.of_nat (lookups E (snd w)) - Z.of_nat n.

(** A backend whose movie lookup answers with a [null] title. *)
Definition null_title : Env :=
  Sample.serve
    [("http://overseerr.local/api/v1/movie/42", JObj [("title", JNull)])].

(** A backend whose request list comes without [pageInfo]. *)
Definition no_page_info : Env :=
  Sample.serve
    [(Sample.page_url "0", JObj [("results", JArr [Sample.dune_request])])].


(** ** Reasoning about runs *)

Section Runs.

Context {E : Env}.

Lemma bind_run {A B : Type} (m : M E A) (f : A -> M E B) w a w1 :
  m w = (Ret a, w1) -> bind m f w = f a w1.
Proof. intros H. unfold bind. rewrite H. reflexivity. Qed.

Lemma bind_ext {A B : Type} (m : M E A) (f g : A -> M E B) w :
  (forall a w1, f a w1 = g a w1) -> bind m f w = bind m g w.
Proof.
  intros H. unfold bind. destruct (m w) as [[a | e | ] w1];
    [apply H | reflexivity | reflexivity].
Qed.

Lemma bind_ret_inv {A B : Type} (m : M E A) (f : A -> M E B) w b w2 :
  bind m f w = (Ret b, w2) ->
  exists a w1, m w = (Ret a, w1) /\ f a w1 = (Ret b, w2).
Proof.
  unfold bind. destruct (m w) as [[a | e | ] w1]; intros H.
  - exists a, w1. split; [reflexivity | exact H].
  - discriminate H.
  - discriminate H.
Qed.

Lemma lift_ret_inv {A : Type} (o : outcome A) (w : world E) a w1 :
  lift o w = (Ret a, w1) -> o = Ret a /\ w1 = w.
Proof. unfold lift. intros H. inversion H. split; reflexivity. Qed.

Lemma and_then_nil {B : Type} (r : outcome (list B) * world E) :
  and_then [] r = r.
Proof. destruct r as [[a | e | ] w]; reflexivity. Qed.

Lemma for_each_cons_run {A B : Type} (body : A -> M E (list B)) x rest
  w out w1 :
  body x w = (Ret out, w1) ->
  for_each body (x :: rest) w = and_then out (for_each body rest w1).
Proof.
  intros H. cbn [for_each]. rewrite (bind_run _ _ _ _ _ H).
  unfold bind, and_then, ret.
  destruct (for_each body rest w1) as [[a | e | ] w2]; reflexivity.
Qed.

(** An iteration that returns without output or effect can be left out
    of the loop. *)
Lemma for_each_skip {A B : Type} (body : A -> M E (list B)) x :
  (forall w, body x w = (Ret [], w)) ->
  forall before after w,
    for_each body (before ++ x :: after) w
    = for_each body (before ++ after) w.
Proof.
  intros Hx before after. induction before as [| y before IH]; intros w.
  - cbn [app]. rewrite (for_each_cons_run _ _ _ _ _ _ (Hx w)).
    apply and_then_nil.
  - cbn [app for_each]. unfold bind at 1 3.
    destruct (body y w) as [[out | e | ] w1]; try reflexivity.
    unfold bind. rewrite IH. reflexivity.
Qed.

Lemma for_each_yields {A B : Type} (P : B -> Prop)
  (body : A -> M E (list B)) :
  (forall x, yields P (body x)) -> forall xs, yields P (for_each body xs).
Proof.
  intros Hbody xs. induction xs as [| x xs IH]; intros w out w1 H.
  - cbn in H. inversion H. constructor.
  - cbn [for_each] in H.
    apply bind_ret_inv in H. destruct H as (o1 & wa & H1 & H).
    apply bind_ret_inv in H. destruct H as (o2 & wb & H2 & H).
    inversion H. subst. apply Forall_app. split.
    + exact (Hbody x _ _ _ H1).
    + exact (IH _ _ _ H2).
Qed.

Lemma enriches_ret {A : Type} (a : A) : enriches (@ret E A a).
Proof. intros w. reflexivity. Qed.

Lemma enriches_lift {A : Type} (o : outcome A) : enriches (@lift E A o).
Proof. intros w. reflexivity. Qed.

Lemma enriches_bind {A B : Type} (m : M E A) (f : A -> M E B) :
  enriches m -> (forall a, enriches (f a)) -> enriches (bind m f).
Proof.
  intros Hm Hf w. unfold bind. specialize (Hm w).
  destruct (m w) as [[a | e | ] w1]; cbn [snd] in *.
  - rewrite (Hf a w1). exact Hm.
  - exact Hm.
  - exact Hm.
Qed.

Lemma enriches_for_each {A B : Type} (body : A -> M E (list B)) :
  (forall x, enriches (body x)) -> forall xs, enriches (for_each body xs).
Proof.
  intros Hbody xs. induction xs as [| x xs IH]; cbn [for_each].
  - apply enriches_ret.
  - apply enriches_bind; [apply Hbody | intros out].
    apply enriches_bind; [exact IH | intros outs]. apply enriches_ret.
Qed.

End Runs.

(** ** The shape of URLs *)

Lemma prefix_app (a b c : string) : prefix (a ++ b) (a ++ c) = prefix b c.
Proof.
  induction a as [| x a IH]; cbn.
  - reflexivity.
  - destruct (ascii_dec x x) as [_ | n]; [exact IH | contradiction].
Qed.

Section Urls.

Variable E : Env.

Lemma request_url_is_page status skip :
  is_page_url E (request_url E status skip) = true.
Proof.
  unfold is_page_url, request_url. rewrite prefix_app.
  generalize (query_string E status skip). intros q. cbn.
  destruct q; reflexivity.
Qed.

Lemma movie_url_not_page movie_id :
  is_page_url E (movie_url E movie_id) = false.
Proof. unfold is_page_url, movie_url. rewrite prefix_app. reflexivity. Qed.

Lemma tv_url_not_page tv_id : is_page_url E (tv_url E tv_id) = false.
Proof. unfold is_page_url, tv_url. rewrite prefix_app. reflexivity. Qed.

Lemma season_url_not_page tv_id season_id :
  is_page_url E (season_url E tv_id season_id) = false.
Proof. unfold is_page_url, season_url. rewrite prefix_app. reflexivity. Qed.

Lemma enriches_request url :
  is_page_url E url = false -> enriches (make_overseerr_request E url).
Proof.
  intros Hurl w. unfold make_overseerr_request.
  destruct (http_get E url (fst w)) as [r s']. unfold requested. cbn [snd].
  unfold page_calls. rewrite filter_app. cbn [filter]. rewrite Hurl.
  apply app_nil_r.
Qed.

End Urls.

(** ** Routing and shaping of one raw request *)

Section Requests.

Variable E : Env.

Lemma get_media fields media :
  Py.dict_get fields "media" = Some (JObj media) ->
  Py.get (JObj fields) "media" (JObj []) = Ret (JObj media).
Proof. intros H. unfold Py.get, Py.field_or. rewrite H. reflexivity. Qed.

Lemma movie_result_dropped start_date fields media w :
  Py.dict_get fields "media" = Some (JObj media) ->
  has_id media "tmdbId" = false \/ has_id media "tvdbId" = true ->
  movie_result E start_date (JObj fields) w = (Ret [], w).
Proof.
  intros Hm Hid. unfold movie_result.
  rewrite (bind_run _ _ _ _ _ (f_equal (fun o => (o, w)) (get_media _ _ Hm))).
  destruct media as [| kv media]; [reflexivity |].
  cbn [Py.truthy negb]. unfold bind, lift, ret. cbn [Py.get].
  fold (id_of (kv :: media) "tmdbId"). fold (id_of (kv :: media) "tvdbId").
  fold (has_id (kv :: media) "tmdbId"). fold (has_id (kv :: media) "tvdbId").
  destruct Hid as [H | H]; rewrite H; cbn [negb].
  - reflexivity.
  - destruct (has_id (kv :: media) "tmdbId"); reflexivity.
Qed.

Lemma movie_result_movie start_date fields media w :
  Py.dict_get fields "media" = Some (JObj media) ->
  has_id media "tmdbId" = true ->
  has_id media "tvdbId" = false ->
  movie_result E start_date (JObj fields) w
  = movie_request E start_date (JObj fields) (JObj media) w.
Proof.
  intros Hm Ht Hv. unfold movie_result.
  rewrite (bind_run _ _ _ _ _ (f_equal (fun o => (o, w)) (get_media _ _ Hm))).
  destruct media as [| kv media]; [discriminate Ht |].
  cbn [Py.truthy negb]. unfold bind at 1 2, lift, ret. cbn [Py.get].
  fold (id_of (kv :: media) "tmdbId"). fold (id_of (kv :: media) "tvdbId").
  fold (has_id (kv :: media) "tmdbId"). fold (has_id (kv :: media) "tvdbId").
  rewrite Ht, Hv. reflexivity.
Qed.

Lemma tv_result_dropped start_date fields media w :
  Py.dict_get fields "media" = Some (JObj media) ->
  has_id media "tvdbId" = false ->
  tv_result E start_date (JObj fields) w = (Ret [], w).
Proof.
  intros Hm Hv. unfold tv_result.
  rewrite (bind_run _ _ _ _ _ (f_equal (fun o => (o, w)) (get_media _ _ Hm))).
  destruct media as [| kv media]; [reflexivity |].
  cbn [Py.truthy negb]. unfold bind, lift, ret. cbn [Py.get].
  fold (id_of (kv :: media) "tvdbId"). fold (has_id (kv :: media) "tvdbId").
  rewrite Hv. reflexivity.
Qed.

Lemma tv_result_tv start_date fields media w :
  Py.dict_get fields "media" = Some (JObj media) ->
  has_id media "tvdbId" = true ->
  tv_result E start_date (JObj fields) w
  = tv_request E start_date (JObj fields) (JObj media) w.
Proof.
  intros Hm Hv. unfold tv_result.
  rewrite (bind_run _ _ _ _ _ (f_equal (fun o => (o, w)) (get_media _ _ Hm))).
  destruct media as [| kv media]; [discriminate Hv |].
  cbn [Py.truthy negb]. unfold bind at 1, lift, ret. cbn [Py.get].
  fold (id_of (kv :: media) "tvdbId"). fold (has_id (kv :: media) "tvdbId").
  rewrite Hv. reflexivity.
Qed.

Lemma movie_result_cases start_date fields media w :
  Py.dict_get fields "media" = Some (JObj media) ->
  movie_result E start_date (JObj fields) w
  = if has_id media "tmdbId" && negb (has_id media "tvdbId")
    then movie_request E start_date (JObj fields) (JObj media) w
    else (Ret [], w).
Proof.
  intros Hm. destruct (has_id media "tmdbId") eqn:Ht;
    [destruct (has_id media "tvdbId") eqn:Hv |]; cbn [andb negb].
  - apply (movie_result_dropped _ _ _ _ Hm). right. exact Hv.
  - apply (movie_result_movie _ _ _ _ Hm Ht Hv).
  - apply (movie_result_dropped _ _ _ _ Hm). left. exact Ht.
Qed.

Lemma tv_result_cases start_date fields media w :
  Py.dict_get fields "media" = Some (JObj media) ->
  tv_result E start_date (JObj fields) w
  = if has_id media "tvdbId"
    then tv_request E start_date (JObj fields) (JObj media) w
    else (Ret [], w).
Proof.
  intros Hm. destruct (has_id media "tvdbId") eqn:Hv.
  - apply (tv_result_tv _ _ _ _ Hm Hv).
  - apply (tv_result_dropped _ _ _ _ Hm Hv).
Qed.

Lemma request_run url w r s' :
  http_get E url (fst w) = (r, s') ->
  make_overseerr_request E url w = (Ret (response_value r), requested w url s').
Proof. intros H. unfold make_overseerr_request. rewrite H. reflexivity. Qed.

Lemma movie_request_run start_date fields media w r s' availability title :
  date_filter start_date (created_at_of fields) = Ret false ->
  media_status_mapping_get (status_of media) = Ret availability ->
  http_get E (movie_url E (id_of media "tmdbId")) (fst w) = (r, s') ->
  Py.get (response_value r) "title" (JStr "Unknown Title") = Ret title ->
  movie_request E start_date (JObj fields) (JObj media) w
  = (Ret [JObj [("title", title);
                ("media_availability", JStr availability);
                ("request_date", created_at_of fields)]],
     requested w (movie_url E (id_of media "tmdbId")) s').
Proof.
  intros Hd Ha Hg Ht. unfold movie_request, get_movie_details.
  unfold bind, lift, ret. cbn [Py.get].
  fold (created_at_of fields). rewrite Hd.
  fold (id_of media "tmdbId"). rewrite (request_run _ _ _ _ Hg).
  fold (status_of media). rewrite Ha, Ht. reflexivity.
Qed.

End Requests.

(** ** Decimal rendering *)

Lemma to_int_not_nil z :
  Z.to_int z <> Decimal.Pos Decimal.Nil
  /\ Z.to_int z <> Decimal.Neg Decimal.Nil.
Proof.
  destruct z as [| p | p]; cbn; split; intros H; inversion H;
    exact (DecimalPos.Unsigned.to_uint_nonnil p ltac:(assumption)).
Qed.

Lemma dec_read z : NilZero.int_of_string (Py.dec z) = Some (Z.to_int z).
Proof.
  unfold Py.dec. destruct (to_int_not_nil z) as [Hp Hn].
  apply NilZero.isi; assumption.
Qed.

Lemma dec_inj a b : Py.dec a = Py.dec b -> a = b.
Proof.
  intros H. apply DecimalZ.to_int_inj.
  assert (Hs : Some (Z.to_int a) = Some (Z.to_int b))
    by (rewrite <- !dec_read, H; reflexivity).
  inversion Hs. reflexivity.
Qed.

Lemma pad2_zero z : Py.pad2 z = "00" -> z = 0.
Proof.
  unfold Py.pad2. destruct ((0 <=? z) && (z <? 10)); intros H.
  - apply dec_inj. cbn in H. inversion H as [Hd]. exact Hd.
  - assert (Hs : NilZero.int_of_string "00" = Some (Z.to_int z))
      by (rewrite <- H; apply dec_read).
    cbn in Hs. inversion Hs as [Hz].
    rewrite <- (DecimalZ.of_to z), <- Hz. reflexivity.
Qed.

(** ** Seasons and episodes *)

Section Seasons.

Variable E : Env.

Lemma season_result_special tv_id tv_details availability created_at
  season number w :
  Py.get season "seasonNumber" (JNum 0) = Ret number ->
  Py.eq_zero number = true ->
  season_result E tv_id tv_details availability created_at season w
  = (Ret [], w).
Proof.
  intros Hn Hz. unfold season_result, bind, lift, ret.
  rewrite Hn, Hz. reflexivity.
Qed.

(** Formatting the episodes requests nothing. *)
Lemma episode_entry_world episode w : snd (episode_entry E episode w) = w.
Proof.
  unfold episode_entry, bind, lift, ret.
  destruct (Py.get episode "episodeNumber" (JNum 0)); try reflexivity.
  destruct (Py.format_02d a); try reflexivity.
  destruct (Py.get episode "name" _); reflexivity.
Qed.

Lemma episodes_world episodes w :
  snd (for_each (episode_entry E) episodes w) = w.
Proof.
  revert w. induction episodes as [| e rest IH]; intros w; cbn [for_each].
  - reflexivity.
  - unfold bind, ret. pose proof (episode_entry_world e w) as He.
    destruct (episode_entry E e w) as [[out | x | ] w1]; cbn [snd] in He;
      subst w1; try reflexivity.
    specialize (IH w).
    destruct (for_each (episode_entry E) rest w) as [[outs | x | ] w2];
      cbn [snd] in IH; subst w2; reflexivity.
Qed.

Lemma season_result_run tv_id tv_details availability created_at season
  number number_str w r s' episodes episode_list episode_details title :
  Py.get season "seasonNumber" (JNum 0) = Ret number ->
  Py.eq_zero number = false ->
  Py.format_02d number = Ret number_str ->
  http_get E (season_url E tv_id number) (fst w) = (r, s') ->
  Py.get (response_value r) "episodes" (JArr []) = Ret episodes ->
  Py.iter episodes = Ret episode_list ->
  fst (for_each (episode_entry E) episode_list
         (requested w (season_url E tv_id number) s'))
    = Ret episode_details ->
  Py.get tv_details "name" (JStr "Unknown TV Show") = Ret title ->
  season_result E tv_id tv_details availability created_at season w
  = (Ret [JObj [("tv_title", title);
                ("tv_title_availability", JStr availability);
                ("tv_season", JStr ("S" ++ number_str));
                ("tv_season_availability", JStr availability);
                ("tv_episodes", JArr episode_details);
                ("request_date", created_at)]],
     requested w (season_url E tv_id number) s').
Proof.
  intros Hn Hz Hf Hg He Hi Hd Ht.
  unfold season_result, get_season_details, bind, lift, ret.
  rewrite Hn, Hz, Hf, (request_run _ _ _ _ _ Hg), He, Hi.
  pose proof (episodes_world episode_list
                (requested w (season_url E tv_id number) s')) as Hw.
  destruct (for_each (episode_entry E) episode_list _) as [o w1].
  cbn [fst snd] in Hd, Hw. subst o w1. rewrite Ht. reflexivity.
Qed.

Lemma tv_request_run start_date fields media w r s' availability seasons
  season_list :
  date_filter start_date (created_at_of fields) = Ret false ->
  media_status_mapping_get (status_of media) = Ret availability ->
  http_get E (tv_url E (id_of media "tmdbId")) (fst w) = (r, s') ->
  Py.get (response_value r) "seasons" (JArr []) = Ret seasons ->
  Py.iter seasons = Ret season_list ->
  tv_request E start_date (JObj fields) (JObj media) w
  = for_each
      (season_result E (id_of media "tmdbId") (response_value r)
         availability (created_at_of fields))
      season_list
      (requested w (tv_url E (id_of media "tmdbId")) s').
Proof.
  intros Hd Ha Hg Hs Hi. unfold tv_request, get_tv_details.
  unfold bind, lift, ret. cbn [Py.get].
  fold (created_at_of fields). rewrite Hd.
  fold (id_of media "tmdbId"). rewrite (request_run _ _ _ _ _ Hg).
  fold (status_of media). rewrite Ha, Hs, Hi. reflexivity.
Qed.

Lemma season_result_not_special tv_id tv_details availability created_at
  season :
  yields not_special
    (season_result E tv_id tv_details availability created_at season).
Proof.
  intros w out w1 H. unfold season_result in H.
  apply bind_ret_inv in H. destruct H as (number & wa & Hn & H).
  apply lift_ret_inv in Hn. destruct Hn as [Hn ->].
  destruct (Py.eq_zero number) eqn:Hz.
  - inversion H. constructor.
  - apply bind_ret_inv in H. destruct H as (number_str & wb & Hf & H).
    apply lift_ret_inv in Hf. destruct Hf as [Hf ->].
    apply bind_ret_inv in H. destruct H as (details & wc & _ & H).
    apply bind_ret_inv in H. destruct H as (episodes & wd & _ & H).
    apply bind_ret_inv in H. destruct H as (episode_list & we & _ & H).
    apply bind_ret_inv in H. destruct H as (episode_details & wf & _ & H).
    apply bind_ret_inv in H. destruct H as (title & wg & _ & H).
    inversion H. subst. constructor; [| constructor].
    unfold not_special. cbn. intros Hs. inversion Hs as [Hp].
    subst number_str.
    destruct number as [| b | z | | |]; try discriminate Hf;
      cbn in Hf; inversion Hf as [Hq]; apply pad2_zero in Hq.
    + destruct b; discriminate.
    + subst z. discriminate Hz.
Qed.

End Seasons.

(** ** The pagination loop *)

Section Loop.

Variable E : Env.

Ltac enrich :=
  repeat first
    [ apply enriches_ret
    | apply enriches_lift
    | apply enriches_request;
      first [ apply movie_url_not_page
            | apply tv_url_not_page
            | apply season_url_not_page ]
    | apply enriches_for_each; intros ?
    | apply enriches_bind; [| intros ?]
    | match goal with
      | |- enriches (if ?b then _ else _) => destruct b
      end ].

Lemma enriches_movie_result start_date result :
  enriches (movie_result E start_date result).
Proof.
  unfold movie_result, movie_request, get_movie_details. enrich.
Qed.

Lemma enriches_tv_result start_date result :
  enriches (tv_result E start_date result).
Proof.
  unfold tv_result, tv_request, get_tv_details. enrich.
Qed.

Variable per_result : option string -> json -> M E (list json).

Lemma request_loop_error fuel status start_date skip all_results w msg s' :
  http_get E (request_url E status skip) (fst w) = (inl msg, s') ->
  request_loop E per_result (S fuel) status start_date skip all_results w
  = (Ret [JObj [("error", JStr msg)]],
     requested w (request_url E status skip) s').
Proof.
  intros Hg. cbn [request_loop].
  rewrite (bind_run _ _ _ _ _ (request_run _ _ _ _ _ Hg)). reflexivity.
Qed.

Lemma request_loop_page fuel status start_date skip all_results w body s'
  results pages out w1 :
  http_get E (request_url E status skip) (fst w) = (inr (JObj body), s') ->
  page_reports body results pages ->
  for_each (per_result start_date) results
    (requested w (request_url E status skip) s') = (Ret out, w1) ->
  request_loop E per_result (S fuel) status start_date skip all_results w
  = if pages <=? skip / take + 1
    then (Ret (all_results ++ out)%list, w1)
    else request_loop E per_result fuel status start_date (skip + take)
           (all_results ++ out)%list w1.
Proof.
  intros Hg (Herr & Hres & page_info & Hpi & Hpages) Hrun.
  cbn [request_loop].
  rewrite (bind_run _ _ _ _ _ (request_run _ _ _ _ _ Hg)).
  cbn [response_value]. unfold bind at 1, lift at 1.
  cbn [Py.contains]. rewrite Herr.
  unfold bind at 1, lift at 1. cbn [Py.get]. rewrite Hres.
  unfold bind at 1, lift at 1. cbn [Py.iter].
  rewrite (bind_run _ _ _ _ _ Hrun).
  unfold bind at 1, lift at 1. unfold Py.field_or. rewrite Hpi.
  unfold bind at 1, lift at 1. cbn [Py.get]. unfold Py.field_or.
  rewrite Hpages. unfold bind at 1, lift at 1. cbn [Py.le_int].
  destruct (pages <=? skip / take + 1); reflexivity.
Qed.

Hypothesis per_result_enriches :
  forall start_date result, enriches (per_result start_date result).

Lemma page_index k : take * Z.of_nat k / take + 1 = Z.of_nat k + 1.
Proof. unfold take. rewrite Z.mul_comm, Z.div_mul by lia. reflexivity. Qed.

Lemma page_next k : take * Z.of_nat k + take = take * Z.of_nat (S k).
Proof. unfold take. lia. Qed.

Lemma request_loop_pages status start_date (pages : nat -> Z) :
  forall m k : nat,
    (forall j, (k <= j <= k + m)%nat ->
               page_served E per_result status start_date j (pages j)) ->
    (forall j, (k <= j < k + m)%nat -> Z.of_nat j + 1 < pages j) ->
    pages (k + m)%nat <= Z.of_nat (k + m) + 1 ->
    forall fuel all_results w,
      (m < fuel)%nat ->
      exists out w',
        request_loop E per_result fuel status start_date
          (take * Z.of_nat k) all_results w = (Ret out, w')
        /\ page_calls E (snd w')
           = (page_calls E (snd w) ++ page_urls E status k (S m))%list.
Proof.
  induction m as [| m IH]; intros k Hserved Hmore Hlast fuel acc w Hfuel;
    (destruct fuel as [| fuel]; [lia |]);
    destruct (Hserved k ltac:(lia) w)
      as (body & results & s' & Hg & Hrep & out & w1 & Hrun);
    rewrite (request_loop_page _ _ _ _ _ _ _ _ _ _ _ _ Hg Hrep Hrun);
    rewrite page_index;
    pose proof (enriches_for_each _ (per_result_enriches start_date)
                  results
                  (requested w (request_url E status (take * Z.of_nat k))
                     s')) as Hlog;
    rewrite Hrun in Hlog; unfold requested in Hlog; cbn [snd] in Hlog;
    unfold page_calls in Hlog at 2; rewrite filter_app in Hlog;
    cbn [filter] in Hlog; rewrite request_url_is_page in Hlog.
  - replace (k + 0)%nat with k in Hlast by lia.
    destruct (Z.leb_spec (pages k) (Z.of_nat k + 1)); [| lia].
    exists (acc ++ out)%list, w1. split; [reflexivity | exact Hlog].
  - pose proof (Hmore k ltac:(lia)).
    destruct (Z.leb_spec (pages k) (Z.of_nat k + 1)); [lia |].
    rewrite page_next.
    destruct (IH (S k)) with (fuel := fuel) (all_results := (acc ++ out)%list)
      (w := w1) as (out' & w' & Hloop & Hcalls).
    + intros j Hj. apply Hserved. lia.
    + intros j Hj. apply Hmore. lia.
    + replace (S k + m)%nat with (k + S m)%nat by lia. exact Hlast.
    + lia.
    + exists out', w'. split; [exact Hloop |].
      rewrite Hcalls, Hlog. rewrite <- app_assoc. reflexivity.
Qed.

Lemma request_loop_fails status start_date (pages : nat -> Z) msg :
  forall m k : nat,
    (forall j, (k <= j < k + m)%nat ->
               page_served E per_result status start_date j (pages j)) ->
    (forall j, (k <= j < k + m)%nat -> Z.of_nat j + 1 < pages j) ->
    page_fails E status (k + m) msg ->
    forall fuel all_results w,
      (m < fuel)%nat ->
      exists w',
        request_loop E per_result fuel status start_date
          (take * Z.of_nat k) all_results w
        = (Ret [JObj [("error", JStr msg)]], w')
        /\ exists log,
             snd w'
             = (log ++ [request_url E status (take * Z.of_nat (k + m))])%list.
Proof.
  induction m as [| m IH]; intros k Hserved Hmore Hfail fuel acc w Hfuel;
    (destruct fuel as [| fuel]; [lia |]).
  - replace (k + 0)%nat with k in * by lia.
    destruct (Hfail w) as (s' & Hg).
    rewrite (request_loop_error _ _ _ _ _ _ _ _ Hg).
    eexists. split; [reflexivity |]. exists (snd w). reflexivity.
  - destruct (Hserved k ltac:(lia) w)
      as (body & results & s' & Hg & Hrep & out & w1 & Hrun).
    rewrite (request_loop_page _ _ _ _ _ _ _ _ _ _ _ _ Hg Hrep Hrun).
    rewrite page_index. pose proof (Hmore k ltac:(lia)).
    destruct (Z.leb_spec (pages k) (Z.of_nat k + 1)); [lia |].
    rewrite page_next. replace (k + S m)%nat with (S k + m)%nat in * by lia.
    apply IH.
    + intros j Hj. apply Hserved. lia.
    + intros j Hj. apply Hmore. lia.
    + exact Hfail.
    + lia.
Qed.


End Loop.

(** ** The end-to-end scenarios of the specification *)

Example dune_scenario :
  get_movie_requests Sample.movies None None 1 Sample.start
  = (Ret [JObj [("title", JStr "Dune");
                ("media_availability", JStr "AVAILABLE");
                ("request_date", JStr "2022-03-01T00:00:00.000Z")]],
     (tt, [Sample.page_url "0"; "http://overseerr.local/api/v1/movie/42"])).
Proof. reflexivity. Qed.

Example show_scenario :
  get_tv_requests Sample.shows None None 1 Sample.start
  = (Ret [JObj [("tv_title", JStr "Show");
                ("tv_title_availability", JStr "UNKNOWN");
                ("tv_season", JStr "S01");
                ("tv_season_availability", JStr "UNKNOWN");
                ("tv_episodes",
                 JArr [JObj [("episode_number", JStr "01");
                             ("episode_name", JStr "Pilot")]]);
                ("request_date", JStr "2022-03-01T00:00:00.000Z")]],
     (tt, [Sample.page_url "0"; "http://overseerr.local/api/v1/tv/7";
           "http://overseerr.local/api/v1/tv/7/season/1"])).
Proof. reflexivity. Qed.

Example three_pages_scenario :
  get_movie_requests Sample.three_pages None
    (Some "2021-01-01T00:00:00.000Z") 3 Sample.start
  = (Ret [JObj [("title", JStr "Unknown Title");
                ("media_availability", JStr "PROCESSING");
                ("request_date", JStr "2021-06-01T00:00:00.000Z")]],
     (tt, [Sample.page_url "0"; Sample.page_url "20";
           "http://overseerr.local/api/v1/movie/12"; Sample.page_url "40"])).
Proof. reflexivity. Qed.

(** A page that is a list and not an object is outside the contract of the
    backend: [response.get] raises. *)
Example page_body_not_an_object :
  get_movie_requests Sample.malformed None None 1 Sample.start
  = (Raise AttributeError, (tt, [Sample.page_url "0"])).
Proof. reflexivity. Qed.

(** The status report of a backend that answers. *)
Example status_report_of_running_backend :
  exists report,
    fst (get_overseerr_status Sample.up Sample.start) = Ret report.
Proof. eexists. reflexivity. Qed.

(** ** The claims of the specification *)

(** *** Status report *)

(** With a backend that answers the status request with an object holding
    a [version], the status report is a string. *)
Lemma status_report_available E w fields s' version :
  http_get E (overseerr_url E ++ "/api/v1/status") (fst w)
    = (inr (JObj fields), s') ->
  Py.dict_get fields "version" = Some version ->
  exists report,
    get_overseerr_status E w
    = (Ret report, requested w (overseerr_url E ++ "/api/v1/status") s').
Proof.
  intros Hg Hv. unfold get_overseerr_status, status_report.
  rewrite (bind_run _ _ _ _ _ (request_run _ _ _ _ _ Hg)).
  cbn [response_value]. unfold bind, lift, ret. cbn [Py.contains Py.items].
  rewrite Hv. eexists. reflexivity.
Qed.

(** C1 (the code departs from the claim).  When the status request fails,
    [make_overseerr_request] hands back its error dict, the report takes
    the [else] branch and evaluates [data["url": url]]: a slice subscript on
    a dict, which raises.  Neither [get_overseerr_status] nor its copy
    [get_overseerr_unavailable_tv_requests] returns a string on that path:
    the exception reaches the caller. *)
Theorem status_report_raises_on_request_error E w msg s' :
  http_get E (overseerr_url E ++ "/api/v1/status") (fst w) = (inl msg, s') ->
  get_overseerr_status E w
    = (Raise (if slice_hashable E then KeyError else TypeError),
       requested w (overseerr_url E ++ "/api/v1/status") s')
  /\ get_overseerr_unavailable_tv_requests E w
     = (Raise (if slice_hashable E then KeyError else TypeError),
        requested w (overseerr_url E ++ "/api/v1/status") s').
Proof.
  intros Hg.
  unfold get_overseerr_status, get_overseerr_unavailable_tv_requests,
    status_report.
  rewrite (bind_run _ _ _ _ _ (request_run _ _ _ _ _ Hg)).
  split; reflexivity.
Qed.

Lemma status_report_raises_on_request_error_witness :
  get_overseerr_status Sample.down Sample.start
    = (Raise TypeError, (tt, ["http://overseerr.local/api/v1/status"]))
  /\ get_overseerr_unavailable_tv_requests Sample.down Sample.start
     = (Raise TypeError, (tt, ["http://overseerr.local/api/v1/status"])).
Proof.
  exact (status_report_raises_on_request_error Sample.down Sample.start
           "All connection attempts failed" tt eq_refl).
Defined.

(** *** Classification *)

(** C2 as stated fails.  The TV request of the specification's own
    end-to-end scenario has both identifiers set; [get_tv_requests] does not
    drop it, it returns the summary of its season 1. *)
Lemma both_identifiers_not_dropped_by_tv :
  Sample.show_request
  = JObj [("media", JObj [("tmdbId", JNum 7); ("tvdbId", JNum 121361)]);
          ("createdAt", JStr "2022-03-01T00:00:00.000Z")]
  /\ has_id [("tmdbId", JNum 7); ("tvdbId", JNum 121361)] "tmdbId" = true
  /\ has_id [("tmdbId", JNum 7); ("tvdbId", JNum 121361)] "tvdbId" = true
  /\ fst (for_each (tv_result Sample.shows None) [Sample.show_request]
            Sample.start)
     = Ret [JObj [("tv_title", JStr "Show");
                  ("tv_title_availability", JStr "UNKNOWN");
                  ("tv_season", JStr "S01");
                  ("tv_season_availability", JStr "UNKNOWN");
                  ("tv_episodes",
                   JArr [JObj [("episode_number", JStr "01");
                               ("episode_name", JStr "Pilot")]]);
                  ("request_date", JStr "2022-03-01T00:00:00.000Z")]]
  /\ fst (for_each (tv_result Sample.shows None) [] Sample.start) = Ret []
  /\ ~ dropped_by (tv_result Sample.shows)
         [("media", JObj [("tmdbId", JNum 7); ("tvdbId", JNum 121361)]);
          ("createdAt", JStr "2022-03-01T00:00:00.000Z")].
Proof.
  repeat (split; [reflexivity |]).
  intros Hdropped. specialize (Hdropped None [] [] Sample.start).
  vm_compute in Hdropped. discriminate Hdropped.
Qed.

(** C2 (amended).  [get_movie_requests] drops every raw request whose
    [tvdbId] is set, so one with both identifiers set too, while
    [get_tv_requests] takes every such request for a TV show and handles it
    as one, whether [tmdbId] is set or not.  A raw request with neither
    identifier is dropped by both operations. *)
Theorem classification_by_identifiers E fields media :
  Py.dict_get fields "media" = Some (JObj media) ->
  (has_id media "tvdbId" = true ->
   dropped_by (movie_result E) fields
   /\ forall start_date w,
        tv_result E start_date (JObj fields) w
        = tv_request E start_date (JObj fields) (JObj media) w)
  /\ (has_id media "tmdbId" = false ->
      has_id media "tvdbId" = false ->
      dropped_by (movie_result E) fields /\ dropped_by (tv_result E) fields).
Proof.
  intros Hm. split.
  - intros Hv. split.
    + intros sd before after w. apply for_each_skip. intros w0.
      apply (movie_result_dropped E sd fields media w0 Hm). right. exact Hv.
    + intros sd w. apply (tv_result_tv E sd fields media w Hm Hv).
  - intros Ht Hv. split; intros sd before after w; apply for_each_skip;
      intros w0.
    + apply (movie_result_dropped E sd fields media w0 Hm). left. exact Ht.
    + apply (tv_result_dropped E sd fields media w0 Hm Hv).
Qed.

Lemma classification_by_identifiers_witness :
  (dropped_by (movie_result Sample.shows)
     [("media", JObj [("tmdbId", JNum 7); ("tvdbId", JNum 121361)]);
      ("createdAt", JStr "2022-03-01T00:00:00.000Z")]
   /\ forall start_date w,
        tv_result Sample.shows start_date Sample.show_request w
        = tv_request Sample.shows start_date Sample.show_request
            (JObj [("tmdbId", JNum 7); ("tvdbId", JNum 121361)]) w)
  /\ (dropped_by (movie_result Sample.shows)
        [("media", JObj [("status", JNum 2)])]
      /\ dropped_by (tv_result Sample.shows)
           [("media", JObj [("status", JNum 2)])]).
Proof.
  split.
  - exact (proj1 (classification_by_identifiers Sample.shows
                    [("media",
                      JObj [("tmdbId", JNum 7); ("tvdbId", JNum 121361)]);
                     ("createdAt", JStr "2022-03-01T00:00:00.000Z")]
                    [("tmdbId", JNum 7); ("tvdbId", JNum 121361)] eq_refl)
             eq_refl).
  - exact (proj2 (classification_by_identifiers Sample.shows
                    [("media", JObj [("status", JNum 2)])]
                    [("status", JNum 2)] eq_refl)
             eq_refl eq_refl).
Defined.

(** *** Pagination *)

(** C3.  When the fetch of a page fails after any number of pages were
    fetched and processed, the aggregation returns the single-element error
    list carrying the message of the failure: the summaries of the earlier
    pages are not part of the result.  The failed fetch is the last request
    of the run.  This holds for [get_movie_requests] and for
    [get_tv_requests] alike. *)
Theorem page_error_discards_results E status start_date
  (pages : nat -> Z) (m : nat) (msg : string) :
  (forall j, (j < m)%nat -> Z.of_nat j + 1 < pages j) ->
  page_fails E (validate_status status) m msg ->
  ((forall j, (j < m)%nat ->
              page_served E (movie_result E) (validate_status status)
                start_date j (pages j)) ->
   forall fuel w,
     (m < fuel)%nat ->
     exists w',
       get_movie_requests E status start_date fuel w
       = (Ret [JObj [("error", JStr msg)]], w')
       /\ exists log,
            snd w'
            = (log ++ [request_url E (validate_status status)
                         (take * Z.of_nat m)])%list)
  /\ ((forall j, (j < m)%nat ->
                 page_served E (tv_result E) (validate_status status)
                   start_date j (pages j)) ->
      forall fuel w,
        (m < fuel)%nat ->
        exists w',
          get_tv_requests E status start_date fuel w
          = (Ret [JObj [("error", JStr msg)]], w')
          /\ exists log,
               snd w'
               = (log ++ [request_url E (validate_status status)
                            (take * Z.of_nat m)])%list).
Proof.
  intros Hmore Hfail.
  split; intros Hserved fuel w Hfuel;
    unfold get_movie_requests, get_tv_requests;
    change 0 with (take * Z.of_nat 0);
    match goal with
    | |- exists _, request_loop _ ?per _ _ _ _ _ _ = _ /\ _ =>
        apply (request_loop_fails E per (validate_status status)
                 start_date pages msg m 0%nat)
    end;
    try (intros j Hj; first [apply Hserved | apply Hmore]; lia);
    try exact Hfail; try exact Hfuel.
Qed.

Lemma sample_page_served (table : list (string * json)) per_result status
  start_date k pages body results :
  Sample.lookup table
    (request_url (Sample.serve table) status (take * Z.of_nat k))
  = inr (JObj body) ->
  page_reports body results pages ->
  (forall w, exists out w',
      for_each (per_result start_date) results w = (Ret out, w')) ->
  page_served (Sample.serve table) per_result status start_date k pages.
Proof.
  intros Hl Hrep Hrun w. exists body, results, (fst w).
  split; [| split].
  - change (http_get (Sample.serve table)
              (request_url (Sample.serve table) status (take * Z.of_nat k))
              (fst w))
      with (Sample.lookup table
              (request_url (Sample.serve table) status (take * Z.of_nat k)),
            fst w).
    rewrite Hl. reflexivity.
  - exact Hrep.
  - apply Hrun.
Qed.

Lemma sample_page_reports results pages :
  page_reports
    [("pageInfo", JObj [("pages", JNum pages)]); ("results", JArr results)]
    results pages.
Proof.
  split; [reflexivity | split; [reflexivity |]].
  eexists. split; reflexivity.
Qed.

Lemma page_error_discards_results_witness :
  (exists w',
      get_movie_requests Sample.second_page_fails None None 2 Sample.start
      = (Ret [JObj [("error", JStr "All connection attempts failed")]], w')
      /\ exists log, snd w' = (log ++ [Sample.page_url "20"])%list)
  /\ (exists w',
         get_tv_requests Sample.second_page_fails None None 2 Sample.start
         = (Ret [JObj [("error", JStr "All connection attempts failed")]], w')
         /\ exists log, snd w' = (log ++ [Sample.page_url "20"])%list).
Proof.
  assert (Hmore : forall j, (j < 1)%nat -> Z.of_nat j + 1 < 3)
    by (intros j Hj; lia).
  assert (Hfail : page_fails Sample.second_page_fails (validate_status None)
                    1 "All connection attempts failed")
    by (intros w; exists (fst w); reflexivity).
  destruct (page_error_discards_results Sample.second_page_fails None None
              (fun _ => 3) 1 "All connection attempts failed" Hmore Hfail)
    as [Hmovie Htv].
  split; [apply Hmovie | apply Htv]; try lia;
    intros j Hj; assert (j = 0%nat) as -> by lia;
    unfold Sample.second_page_fails;
    (eapply sample_page_served;
     [ reflexivity
     | apply sample_page_reports
     | intros [[] log]; eexists; eexists; vm_compute; reflexivity ]).
Defined.

(** C4.  The loop requests page after page, at offsets 0, 20, 40, ..., and
    stops at the first page whose reported page count is not greater than
    [skip / 20 + 1]: when that is the page at offset [20 * n], the run makes
    exactly the [n + 1] page requests of offsets [0] to [20 * n], in that
    order, and returns.  With a backend that reports 3 pages, these are the
    offsets 0, 20 and 40. *)
Theorem pagination_stops_at_reported_count E status start_date
  (pages : nat -> Z) (n : nat) :
  (forall j, (j < n)%nat -> Z.of_nat j + 1 < pages j) ->
  pages n <= Z.of_nat n + 1 ->
  ((forall j, (j <= n)%nat ->
              page_served E (movie_result E) (validate_status status)
                start_date j (pages j)) ->
   forall fuel w,
     (n < fuel)%nat ->
     exists out w',
       get_movie_requests E status start_date fuel w = (Ret out, w')
       /\ page_calls E (snd w')
          = (page_calls E (snd w)
               ++ page_urls E (validate_status status) 0 (S n))%list)
  /\ ((forall j, (j <= n)%nat ->
                 page_served E (tv_result E) (validate_status status)
                   start_date j (pages j)) ->
      forall fuel w,
        (n < fuel)%nat ->
        exists out w',
          get_tv_requests E status start_date fuel w = (Ret out, w')
          /\ page_calls E (snd w')
             = (page_calls E (snd w)
                  ++ page_urls E (validate_status status) 0 (S n))%list).
Proof.
  intros Hmore Hlast.
  split; intros Hserved fuel w Hfuel;
    unfold get_movie_requests, get_tv_requests;
    change 0 with (take * Z.of_nat 0).
  - apply (request_loop_pages E (movie_result E) (enriches_movie_result E)
             (validate_status status) start_date pages n 0%nat);
      try assumption; intros j Hj; first [apply Hserved | apply Hmore]; lia.
  - apply (request_loop_pages E (tv_result E) (enriches_tv_result E)
             (validate_status status) start_date pages n 0%nat);
      try assumption; intros j Hj; first [apply Hserved | apply Hmore]; lia.
Qed.

Lemma pagination_stops_at_reported_count_witness :
  (exists out w',
      get_movie_requests Sample.three_pages None None 3 Sample.start
      = (Ret out, w')
      /\ page_calls Sample.three_pages (snd w')
         = [Sample.page_url "0"; Sample.page_url "20"; Sample.page_url "40"])
  /\ (exists out w',
         get_tv_requests Sample.three_pages None None 3 Sample.start
         = (Ret out, w')
         /\ page_calls Sample.three_pages (snd w')
            = [Sample.page_url "0"; Sample.page_url "20";
               Sample.page_url "40"]).
Proof.
  assert (Hmore : forall j, (j < 2)%nat -> Z.of_nat j + 1 < 3)
    by (intros j Hj; lia).
  assert (Hlast : 3 <= Z.of_nat 2 + 1) by (cbn; lia).
  destruct (pagination_stops_at_reported_count Sample.three_pages None None
              (fun _ => 3) 2 Hmore Hlast) as [Hmovie Htv].
  split; [apply Hmovie | apply Htv]; try lia;
    intros j Hj;
    (assert (Hcase : j = 0%nat \/ j = 1%nat \/ j = 2%nat) by lia);
    destruct Hcase as [-> | [-> | ->]];
    unfold Sample.three_pages;
    (eapply sample_page_served;
     [ reflexivity
     | apply sample_page_reports
     | intros [[] log]; eexists; eexists; vm_compute; reflexivity ]).
Defined.

(** *** Seasons *)

Lemma tv_result_not_special E start_date result :
  yields not_special (tv_result E start_date result).
Proof.
  intros w out w1 H. unfold tv_result in H.
  apply bind_ret_inv in H. destruct H as (media_info & wa & _ & H).
  destruct (negb (Py.truthy media_info)); [inversion H; constructor |].
  apply bind_ret_inv in H. destruct H as (tvdb & wb & _ & H).
  destruct (negb (Py.truthy tvdb)); [inversion H; constructor |].
  unfold tv_request in H.
  apply bind_ret_inv in H. destruct H as (created_at & wc & _ & H).
  apply bind_ret_inv in H. destruct H as (too_old & wd & _ & H).
  destruct too_old; [inversion H; constructor |].
  apply bind_ret_inv in H. destruct H as (tv_id & we & _ & H).
  apply bind_ret_inv in H. destruct H as (tv_details & wf & _ & H).
  apply bind_ret_inv in H. destruct H as (code & wg & _ & H).
  apply bind_ret_inv in H. destruct H as (availability & wh & _ & H).
  apply bind_ret_inv in H. destruct H as (seasons & wi & _ & H).
  apply bind_ret_inv in H. destruct H as (season_list & wj & _ & H).
  revert H. apply for_each_yields. intros season.
  apply season_result_not_special.
Qed.

Lemma request_loop_yields E (P : json -> Prop) per_result :
  (forall start_date result, yields P (per_result start_date result)) ->
  (forall message, P (JObj [("error", message)])) ->
  forall fuel status start_date skip all_results w out w1,
    Forall P all_results ->
    request_loop E per_result fuel status start_date skip all_results w
    = (Ret out, w1) ->
    Forall P out.
Proof.
  intros Hper Herr fuel.
  induction fuel as [| fuel IH]; intros status sd skip acc w out w1 Hacc H.
  - discriminate H.
  - cbn [request_loop] in H.
    apply bind_ret_inv in H. destruct H as (response & wa & _ & H).
    apply bind_ret_inv in H. destruct H as (failed & wb & _ & H).
    destruct failed.
    + apply bind_ret_inv in H. destruct H as (message & wc & _ & H).
      inversion H. constructor; [apply Herr | constructor].
    + apply bind_ret_inv in H. destruct H as (results & wc & _ & H).
      apply bind_ret_inv in H. destruct H as (result_list & wd & _ & H).
      apply bind_ret_inv in H. destruct H as (new_results & we & Hnew & H).
      apply bind_ret_inv in H. destruct H as (page_info & wf & _ & H).
      apply bind_ret_inv in H. destruct H as (pages & wg & _ & H).
      apply bind_ret_inv in H. destruct H as (last & wh & _ & H).
      assert (Hall : Forall P (acc ++ new_results)).
      { apply Forall_app. split; [exact Hacc |].
        exact (for_each_yields P _ (Hper sd) _ _ _ _ Hnew). }
      destruct last.
      * inversion H. subst. exact Hall.
      * exact (IH _ _ _ _ _ _ _ Hall H).
Qed.

(** C5.  A season whose [seasonNumber] is 0 leaves no trace in the loop
    over the seasons of a show: with or without it, the loop returns the
    same summaries and requests the same URLs, so it adds no summary and
    triggers no season-detail lookup.  And no summary [get_tv_requests]
    returns, for any backend and arguments, carries the label [S00] of
    season 0. *)
Theorem season_zero_excluded E :
  (forall tv_id tv_details availability created_at fields before after w,
      Py.dict_get fields "seasonNumber" = Some (JNum 0) ->
      for_each (season_result E tv_id tv_details availability created_at)
        (before ++ JObj fields :: after) w
      = for_each (season_result E tv_id tv_details availability created_at)
          (before ++ after) w)
  /\ (forall status start_date fuel w out w1,
         get_tv_requests E status start_date fuel w = (Ret out, w1) ->
         Forall not_special out).
Proof.
  split.
  - intros tv_id tv_details availability created_at fields before after w Hn.
    apply for_each_skip. intros w0.
    apply (season_result_special E _ _ _ _ _ (JNum 0)); [| reflexivity].
    unfold Py.get, Py.field_or. rewrite Hn. reflexivity.
  - intros status sd fuel w out w1 H. unfold get_tv_requests in H.
    revert H. apply request_loop_yields.
    + intros sd' result. apply tv_result_not_special.
    + intros message. unfold not_special. cbn. discriminate.
    + constructor.
Qed.

Lemma season_zero_excluded_witness :
  for_each
    (season_result Sample.shows (JNum 7) Sample.show_details "UNKNOWN"
       (JStr "2022-03-01T00:00:00.000Z"))
    ([] ++ JObj [("seasonNumber", JNum 0)]
        :: [JObj [("seasonNumber", JNum 1)]]) Sample.start
  = for_each
      (season_result Sample.shows (JNum 7) Sample.show_details "UNKNOWN"
         (JStr "2022-03-01T00:00:00.000Z"))
      ([] ++ [JObj [("seasonNumber", JNum 1)]]) Sample.start
  /\ Forall not_special
       [JObj [("tv_title", JStr "Show");
              ("tv_title_availability", JStr "UNKNOWN");
              ("tv_season", JStr "S01");
              ("tv_season_availability", JStr "UNKNOWN");
              ("tv_episodes",
               JArr [JObj [("episode_number", JStr "01");
                           ("episode_name", JStr "Pilot")]]);
              ("request_date", JStr "2022-03-01T00:00:00.000Z")]].
Proof.
  destruct (season_zero_excluded Sample.shows) as [Hskip Hlabel].
  split.
  - apply Hskip. reflexivity.
  - apply (Hlabel None None 1%nat Sample.start _
             (snd (get_tv_requests Sample.shows None None 1 Sample.start))).
    reflexivity.
Defined.

(** *** Date filter *)

Lemma date_filter_string start_date c :
  date_filter start_date (JStr c) = Ret (excluded_by_date start_date c).
Proof.
  destruct start_date as [s |]; [| reflexivity].
  destruct s as [| a s]; [destruct c; reflexivity | reflexivity].
Qed.

Lemma created_at_string fields c :
  Py.dict_get fields "createdAt" = Some (JStr c) ->
  created_at_of fields = JStr c.
Proof. intros H. unfold created_at_of, Py.field_or. rewrite H. reflexivity. Qed.

Lemma movie_request_date E start_date fields media c w :
  created_at_of fields = JStr c ->
  movie_request E start_date (JObj fields) (JObj media) w
  = if excluded_by_date start_date c then (Ret [], w)
    else movie_request E None (JObj fields) (JObj media) w.
Proof.
  intros Hc. unfold movie_request, bind, lift, ret. cbn [Py.get].
  fold (created_at_of fields). rewrite Hc, !date_filter_string.
  destruct (excluded_by_date start_date c); reflexivity.
Qed.

Lemma tv_request_date E start_date fields media c w :
  created_at_of fields = JStr c ->
  tv_request E start_date (JObj fields) (JObj media) w
  = if excluded_by_date start_date c then (Ret [], w)
    else tv_request E None (JObj fields) (JObj media) w.
Proof.
  intros Hc. unfold tv_request, bind, lift, ret. cbn [Py.get].
  fold (created_at_of fields). rewrite Hc, !date_filter_string.
  destruct (excluded_by_date start_date c); reflexivity.
Qed.

(** C6.  For a raw request whose [createdAt] is a string, the test of
    lines 141 and 274 is the comparison of the specification: it holds
    exactly when a start date is supplied and is lexicographically greater
    than [createdAt], and never without a start date.  When it holds, the
    request yields no summary and no lookup, in both operations.  When it
    does not, the request is in the output: a movie request is looked up
    and gives its summary, dated [createdAt]; a TV request is looked up and
    gives the summaries of its seasons, dated [createdAt]; both are handled
    as they are without a start date.  With the start date
    2021-01-01T00:00:00.000Z, a request created at 2020-12-31T23:59:59.000Z
    is excluded and one created at 2021-06-01T00:00:00.000Z is not. *)
Theorem date_filter_exact E start_date fields media c w :
  Py.dict_get fields "media" = Some (JObj media) ->
  Py.dict_get fields "createdAt" = Some (JStr c) ->
  date_filter start_date (created_at_of fields)
    = Ret (excluded_by_date start_date c)
  /\ (excluded_by_date start_date c = true ->
      movie_result E start_date (JObj fields) w = (Ret [], w)
      /\ tv_result E start_date (JObj fields) w = (Ret [], w))
  /\ (excluded_by_date start_date c = false ->
      movie_result E start_date (JObj fields) w
      = movie_result E None (JObj fields) w
      /\ tv_result E start_date (JObj fields) w
         = tv_result E None (JObj fields) w)
  /\ (excluded_by_date start_date c = false ->
      has_id media "tmdbId" = true ->
      has_id media "tvdbId" = false ->
      forall availability r s' title,
        media_status_mapping_get (status_of media) = Ret availability ->
        http_get E (movie_url E (id_of media "tmdbId")) (fst w) = (r, s') ->
        Py.get (response_value r) "title" (JStr "Unknown Title") = Ret title ->
        movie_result E start_date (JObj fields) w
        = (Ret [JObj [("title", title);
                      ("media_availability", JStr availability);
                      ("request_date", JStr c)]],
           requested w (movie_url E (id_of media "tmdbId")) s'))
  /\ (excluded_by_date start_date c = false ->
      has_id media "tvdbId" = true ->
      forall availability r s' seasons season_list,
        media_status_mapping_get (status_of media) = Ret availability ->
        http_get E (tv_url E (id_of media "tmdbId")) (fst w) = (r, s') ->
        Py.get (response_value r) "seasons" (JArr []) = Ret seasons ->
        Py.iter seasons = Ret season_list ->
        tv_result E start_date (JObj fields) w
        = for_each
            (season_result E (id_of media "tmdbId") (response_value r)
               availability (JStr c))
            season_list
            (requested w (tv_url E (id_of media "tmdbId")) s'))
  /\ excluded_by_date None c = false
  /\ date_filter (Some "2021-01-01T00:00:00.000Z")
       (JStr "2020-12-31T23:59:59.000Z") = Ret true
  /\ date_filter (Some "2021-01-01T00:00:00.000Z")
       (JStr "2021-06-01T00:00:00.000Z") = Ret false
  /\ excluded_by_date (Some "2021-01-01T00:00:00.000Z")
       "2020-12-31T23:59:59.000Z" = true
  /\ excluded_by_date (Some "2021-01-01T00:00:00.000Z")
       "2021-06-01T00:00:00.000Z" = false.
Proof.
  intros Hm Hc. apply created_at_string in Hc.
  pose proof (fun sd => movie_result_cases E sd fields media w Hm) as Hmovie.
  pose proof (fun sd => tv_result_cases E sd fields media w Hm) as Htv.
  assert (Hfilter : date_filter start_date (created_at_of fields)
                    = Ret (excluded_by_date start_date c))
    by (rewrite Hc; apply date_filter_string).
  split; [exact Hfilter |].
  split; [intros Hx; split |].
  - rewrite Hmovie, (movie_request_date E start_date fields media c w Hc), Hx.
    destruct (has_id media "tmdbId" && negb (has_id media "tvdbId"));
      reflexivity.
  - rewrite Htv, (tv_request_date E start_date fields media c w Hc), Hx.
    destruct (has_id media "tvdbId"); reflexivity.
  - split; [intros Hx; split |].
    + rewrite !Hmovie,
        (movie_request_date E start_date fields media c w Hc), Hx.
      reflexivity.
    + rewrite !Htv, (tv_request_date E start_date fields media c w Hc), Hx.
      reflexivity.
    + split; [| split; [| repeat split]].
      * intros Hx Ht Hv availability r s' title Ha Hg Htitle.
        rewrite Hx in Hfilter.
        rewrite (movie_result_movie E start_date fields media w Hm Ht Hv).
        rewrite (movie_request_run E start_date fields media w r s'
                   availability title Hfilter Ha Hg Htitle).
        rewrite Hc. reflexivity.
      * intros Hx Hv availability r s' seasons season_list Ha Hg Hs Hi.
        rewrite Hx in Hfilter.
        rewrite (tv_result_tv E start_date fields media w Hm Hv).
        rewrite (tv_request_run E start_date fields media w r s'
                   availability seasons season_list Hfilter Ha Hg Hs Hi).
        rewrite Hc. reflexivity.
Qed.

Lemma date_filter_exact_witness :
  date_filter (Some "2021-01-01T00:00:00.000Z")
    (JStr "2020-12-31T23:59:59.000Z") = Ret true
  /\ movie_result Sample.three_pages (Some "2021-01-01T00:00:00.000Z")
       Sample.old_request Sample.start = (Ret [], Sample.start)
  /\ movie_result Sample.three_pages (Some "2021-01-01T00:00:00.000Z")
       Sample.new_request Sample.start
     = movie_result Sample.three_pages None Sample.new_request Sample.start
  /\ movie_result Sample.movies (Some "2021-01-01T00:00:00.000Z")
       Sample.dune_request Sample.start
     = (Ret [JObj [("title", JStr "Dune");
                   ("media_availability", JStr "AVAILABLE");
                   ("request_date", JStr "2022-03-01T00:00:00.000Z")]],
        (tt, ["http://overseerr.local/api/v1/movie/42"]))
  /\ tv_result Sample.shows (Some "2021-01-01T00:00:00.000Z")
       Sample.show_request Sample.start
     = for_each
         (season_result Sample.shows (JNum 7) Sample.show_details "UNKNOWN"
            (JStr "2022-03-01T00:00:00.000Z"))
         [JObj [("seasonNumber", JNum 0)]; JObj [("seasonNumber", JNum 1)]]
         (tt, ["http://overseerr.local/api/v1/tv/7"]).
Proof.
  split; [| split; [| split; [| split]]].
  - exact (proj1 (date_filter_exact Sample.three_pages
                    (Some "2021-01-01T00:00:00.000Z")
                    [("media", JObj [("tmdbId", JNum 11)]);
                     ("createdAt", JStr "2020-12-31T23:59:59.000Z")]
                    [("tmdbId", JNum 11)]
                    "2020-12-31T23:59:59.000Z" Sample.start
                    eq_refl eq_refl)).
  - exact (proj1 (proj1 (proj2 (date_filter_exact Sample.three_pages
                                  (Some "2021-01-01T00:00:00.000Z")
                                  [("media", JObj [("tmdbId", JNum 11)]);
                                   ("createdAt",
                                    JStr "2020-12-31T23:59:59.000Z")]
                                  [("tmdbId", JNum 11)]
                                  "2020-12-31T23:59:59.000Z" Sample.start
                                  eq_refl eq_refl))
                    eq_refl)).
  - exact (proj1 (proj1 (proj2 (proj2
                                  (date_filter_exact Sample.three_pages
                                     (Some "2021-01-01T00:00:00.000Z")
                                     [("media", JObj [("tmdbId", JNum 12);
                                                      ("status", JNum 3)]);
                                      ("createdAt",
                                       JStr "2021-06-01T00:00:00.000Z")]
                                     [("tmdbId", JNum 12); ("status", JNum 3)]
                                     "2021-06-01T00:00:00.000Z" Sample.start
                                     eq_refl eq_refl)))
                    eq_refl)).
  - exact (proj1 (proj2 (proj2 (proj2
                                  (date_filter_exact Sample.movies
                                     (Some "2021-01-01T00:00:00.000Z")
                                     [("media", JObj [("tmdbId", JNum 42);
                                                      ("status", JNum 5)]);
                                      ("createdAt",
                                       JStr "2022-03-01T00:00:00.000Z")]
                                     [("tmdbId", JNum 42); ("status", JNum 5)]
                                     "2022-03-01T00:00:00.000Z" Sample.start
                                     eq_refl eq_refl))))
             eq_refl eq_refl eq_refl "AVAILABLE"
             (inr (JObj [("title", JStr "Dune")])) tt (JStr "Dune")
             eq_refl eq_refl eq_refl).
  - exact (proj1 (proj2 (proj2 (proj2 (proj2
                                  (date_filter_exact Sample.shows
                                     (Some "2021-01-01T00:00:00.000Z")
                                     [("media",
                                       JObj [("tmdbId", JNum 7);
                                             ("tvdbId", JNum 121361)]);
                                      ("createdAt",
                                       JStr "2022-03-01T00:00:00.000Z")]
                                     [("tmdbId", JNum 7);
                                      ("tvdbId", JNum 121361)]
                                     "2022-03-01T00:00:00.000Z" Sample.start
                                     eq_refl eq_refl)))))
             eq_refl eq_refl "UNKNOWN" (inr Sample.show_details) tt
             (JArr [JObj [("seasonNumber", JNum 0)];
                    JObj [("seasonNumber", JNum 1)]])
             [JObj [("seasonNumber", JNum 0)]; JObj [("seasonNumber", JNum 1)]]
             eq_refl eq_refl eq_refl eq_refl).
Defined.

(** *** Status normalization *)

Lemma status_absent media :
  Py.dict_get media "status" = None -> status_of media = JNum 1.
Proof. intros H. unfold status_of, Py.field_or. rewrite H. reflexivity. Qed.

Lemma movie_request_unknown E start_date fields media :
  status_of media = JNum 1 ->
  yields (unknown_availability "media_availability")
    (movie_request E start_date (JObj fields) (JObj media)).
Proof.
  intros Hs w out w1 H. unfold movie_request in H.
  apply bind_ret_inv in H. destruct H as (created_at & wa & _ & H).
  apply bind_ret_inv in H. destruct H as (too_old & wb & _ & H).
  destruct too_old; [inversion H; constructor |].
  apply bind_ret_inv in H. destruct H as (movie_id & wc & _ & H).
  apply bind_ret_inv in H. destruct H as (details & wd & _ & H).
  apply bind_ret_inv in H. destruct H as (code & we & Hcode & H).
  apply lift_ret_inv in Hcode. destruct Hcode as [Hcode ->].
  cbn [Py.get] in Hcode. fold (status_of media) in Hcode.
  rewrite Hs in Hcode. inversion Hcode. subst code.
  apply bind_ret_inv in H. destruct H as (availability & wf & Ha & H).
  apply lift_ret_inv in Ha. destruct Ha as [Ha ->].
  cbn in Ha. inversion Ha. subst availability.
  apply bind_ret_inv in H. destruct H as (title & wg & _ & H).
  inversion H. constructor; [reflexivity | constructor].
Qed.

Lemma tv_request_unknown E start_date fields media :
  status_of media = JNum 1 ->
  yields (unknown_availability "tv_title_availability")
    (tv_request E start_date (JObj fields) (JObj media)).
Proof.
  intros Hs w out w1 H. unfold tv_request in H.
  apply bind_ret_inv in H. destruct H as (created_at & wa & _ & H).
  apply bind_ret_inv in H. destruct H as (too_old & wb & _ & H).
  destruct too_old; [inversion H; constructor |].
  apply bind_ret_inv in H. destruct H as (tv_id & wc & _ & H).
  apply bind_ret_inv in H. destruct H as (details & wd & _ & H).
  apply bind_ret_inv in H. destruct H as (code & we & Hcode & H).
  apply lift_ret_inv in Hcode. destruct Hcode as [Hcode ->].
  cbn [Py.get] in Hcode. fold (status_of media) in Hcode.
  rewrite Hs in Hcode. inversion Hcode. subst code.
  apply bind_ret_inv in H. destruct H as (availability & wf & Ha & H).
  apply lift_ret_inv in Ha. destruct Ha as [Ha ->].
  cbn in Ha. inversion Ha. subst availability.
  apply bind_ret_inv in H. destruct H as (seasons & wg & _ & H).
  apply bind_ret_inv in H. destruct H as (season_list & wh & _ & H).
  revert H. apply for_each_yields. intros season v outs v1 H.
  unfold season_result in H.
  apply bind_ret_inv in H. destruct H as (number & va & _ & H).
  destruct (Py.eq_zero number); [inversion H; constructor |].
  apply bind_ret_inv in H. destruct H as (number_str & vb & _ & H).
  apply bind_ret_inv in H. destruct H as (season_details & vc & _ & H).
  apply bind_ret_inv in H. destruct H as (episodes & vd & _ & H).
  apply bind_ret_inv in H. destruct H as (episode_list & ve & _ & H).
  apply bind_ret_inv in H. destruct H as (episode_details & vf & _ & H).
  apply bind_ret_inv in H. destruct H as (title & vg & _ & H).
  inversion H. constructor; [reflexivity | constructor].
Qed.

(** C7.  The status mapping is total on integers: 1 is UNKNOWN, 2 PENDING,
    3 PROCESSING, 4 PARTIALLY_AVAILABLE, 5 AVAILABLE, and every other
    integer is UNKNOWN.  A media object without a [status] field is read as
    code 1: every summary made from it carries the availability UNKNOWN. *)
Theorem status_normalization_total :
  media_status_mapping_get (JNum 1) = Ret "UNKNOWN"
  /\ media_status_mapping_get (JNum 2) = Ret "PENDING"
  /\ media_status_mapping_get (JNum 3) = Ret "PROCESSING"
  /\ media_status_mapping_get (JNum 4) = Ret "PARTIALLY_AVAILABLE"
  /\ media_status_mapping_get (JNum 5) = Ret "AVAILABLE"
  /\ (forall code,
         code < 1 \/ 5 < code ->
         media_status_mapping_get (JNum code) = Ret "UNKNOWN")
  /\ (forall E start_date fields media,
         Py.dict_get fields "media" = Some (JObj media) ->
         Py.dict_get media "status" = None ->
         yields (unknown_availability "media_availability")
           (movie_result E start_date (JObj fields))
         /\ yields (unknown_availability "tv_title_availability")
              (tv_result E start_date (JObj fields))).
Proof.
  repeat (split; [reflexivity |]). split.
  - intros code Hcode. unfold media_status_mapping_get. cbn [Py.int_key].
    destruct code as [| p | p]; try reflexivity.
    destruct p as [[[|p|]|[|p|]|]|[[|p|]|[|p|]|]|]; try reflexivity; lia.
  - intros E sd fields media Hm Hs. apply status_absent in Hs.
    split; intros w out w1 H.
    + rewrite (movie_result_cases E sd fields media w Hm) in H.
      destruct (has_id media "tmdbId" && negb (has_id media "tvdbId")).
      * exact (movie_request_unknown E sd fields media Hs _ _ _ H).
      * inversion H. constructor.
    + rewrite (tv_result_cases E sd fields media w Hm) in H.
      destruct (has_id media "tvdbId").
      * exact (tv_request_unknown E sd fields media Hs _ _ _ H).
      * inversion H. constructor.
Qed.

Lemma status_normalization_total_witness :
  media_status_mapping_get (JNum 0) = Ret "UNKNOWN"
  /\ media_status_mapping_get (JNum 6) = Ret "UNKNOWN"
  /\ media_status_mapping_get (JNum (-1)) = Ret "UNKNOWN"
  /\ Forall (unknown_availability "media_availability")
       [JObj [("title", JStr "Unknown Title");
              ("media_availability", JStr "UNKNOWN");
              ("request_date", JStr "2020-12-31T23:59:59.000Z")]].
Proof.
  destruct status_normalization_total
    as (_ & _ & _ & _ & _ & Hother & Habsent).
  split; [| split; [| split]].
  - apply Hother. lia.
  - apply Hother. lia.
  - apply Hother. lia.
  - apply (proj1 (Habsent Sample.three_pages None
                    [("media", JObj [("tmdbId", JNum 11)]);
                     ("createdAt", JStr "2020-12-31T23:59:59.000Z")]
                    [("tmdbId", JNum 11)] eq_refl eq_refl)
             Sample.start _
             (snd (movie_result Sample.three_pages None Sample.old_request
                     Sample.start))).
    reflexivity.
Defined.

(** *** Status filter *)





(** *** Enrichment *)

(** What a lookup gives when it failed or answered without the field. *)
Lemma response_lacks r key default :
  (exists msg, r = inl msg)
  \/ (exists details,
        r = inr (JObj details) /\ Py.dict_get details key = None) ->
  key <> "Request Error" ->
  Py.get (response_value r) key default = Ret default.
Proof.
  intros [(msg & ->) | (details & -> & Hd)] Hkey;
    unfold response_value, Py.get, Py.field_or.
  - cbn [Py.dict_get].
    destruct (String.eqb_spec "Request Error" key) as [Heq | _];
      [symmetry in Heq; contradiction | reflexivity].
  - rewrite Hd. reflexivity.
Qed.

(** C9.  A failed or title-less movie lookup still gives the request its
    summary, titled [Unknown Title], and the loop goes on with the
    remaining requests.  An episode without a name is named
    [Episode {number}], next to its number padded with a zero to two
    digits.  A failed season lookup gives the season a summary without
    episodes, and the loop goes on with the remaining seasons.  None of
    these turns the run into an error. *)
Theorem enrichment_failures_degrade E :
  (forall start_date fields media availability w r s' rest,
      Py.dict_get fields "media" = Some (JObj media) ->
      has_id media "tmdbId" = true ->
      has_id media "tvdbId" = false ->
      date_filter start_date (created_at_of fields) = Ret false ->
      media_status_mapping_get (status_of media) = Ret availability ->
      http_get E (movie_url E (id_of media "tmdbId")) (fst w) = (r, s') ->
      (exists msg, r = inl msg)
      \/ (exists details,
            r = inr (JObj details) /\ Py.dict_get details "title" = None) ->
      for_each (movie_result E start_date) (JObj fields :: rest) w
      = and_then
          [JObj [("title", JStr "Unknown Title");
                 ("media_availability", JStr availability);
                 ("request_date", created_at_of fields)]]
          (for_each (movie_result E start_date) rest
             (requested w (movie_url E (id_of media "tmdbId")) s')))
  /\ (forall fields number w,
         Py.dict_get fields "episodeNumber" = Some (JNum number) ->
         Py.dict_get fields "name" = None ->
         episode_entry E (JObj fields) w
         = (Ret [JObj [("episode_number", JStr (Py.pad2 number));
                       ("episode_name",
                        JStr ("Episode " ++ Py.dec number))]],
            w))
  /\ (forall number, 0 <= number < 10 ->
                     Py.pad2 number = "0" ++ Py.dec number)
  /\ (forall number, 10 <= number -> Py.pad2 number = Py.dec number)
  /\ (forall tv_id tv_details title availability created_at fields number
        number_str w msg s' rest,
         Py.dict_get fields "seasonNumber" = Some number ->
         Py.eq_zero number = false ->
         Py.format_02d number = Ret number_str ->
         Py.get tv_details "name" (JStr "Unknown TV Show") = Ret title ->
         http_get E (season_url E tv_id number) (fst w) = (inl msg, s') ->
         for_each (season_result E tv_id tv_details availability created_at)
           (JObj fields :: rest) w
         = and_then
             [JObj [("tv_title", title);
                    ("tv_title_availability", JStr availability);
                    ("tv_season", JStr ("S" ++ number_str));
                    ("tv_season_availability", JStr availability);
                    ("tv_episodes", JArr []);
                    ("request_date", created_at)]]
             (for_each
                (season_result E tv_id tv_details availability created_at)
                rest (requested w (season_url E tv_id number) s'))).
Proof.
  split; [| split; [| split; [| split]]].
  - intros sd fields media availability w r s' rest Hm Ht Hv Hd Ha Hg Hr.
    apply for_each_cons_run.
    rewrite (movie_result_movie E sd fields media w Hm Ht Hv).
    apply (movie_request_run E sd fields media w r s' availability _ Hd Ha Hg).
    apply response_lacks; [exact Hr | discriminate].
  - intros fields number w Hn Hname.
    unfold episode_entry, bind, lift, ret. cbn [Py.get].
    unfold Py.field_or. rewrite Hn, Hname. reflexivity.
  - intros number Hn. unfold Py.pad2.
    destruct (Z.leb_spec 0 number); [| lia].
    destruct (Z.ltb_spec number 10); [reflexivity | lia].
  - intros number Hn. unfold Py.pad2.
    destruct (Z.ltb_spec number 10); [lia |].
    rewrite andb_false_r. reflexivity.
  - intros tv_id tv_details title availability created_at fields number
      number_str w msg s' rest Hn Hz Hf Ht Hg.
    apply for_each_cons_run.
    apply (season_result_run E tv_id tv_details availability created_at
             (JObj fields) number number_str w (inl msg) s' (JArr []) []
             [] title); try assumption; try reflexivity.
    unfold Py.get, Py.field_or. rewrite Hn. reflexivity.
Qed.

Lemma enrichment_failures_degrade_witness :
  for_each (movie_result Sample.three_pages None)
    [Sample.old_request; Sample.new_request] Sample.start
  = and_then
      [JObj [("title", JStr "Unknown Title");
             ("media_availability", JStr "UNKNOWN");
             ("request_date", JStr "2020-12-31T23:59:59.000Z")]]
      (for_each (movie_result Sample.three_pages None) [Sample.new_request]
         (tt, ["http://overseerr.local/api/v1/movie/11"]))
  /\ episode_entry Sample.shows (JObj [("episodeNumber", JNum 7)])
       Sample.start
     = (Ret [JObj [("episode_number", JStr "07");
                   ("episode_name", JStr "Episode 7")]],
        Sample.start)
  /\ Py.pad2 7 = "07"
  /\ Py.pad2 12 = "12"
  /\ for_each
       (season_result Sample.three_pages (JNum 7) Sample.show_details
          "PENDING" (JStr "2022-03-01T00:00:00.000Z"))
       [JObj [("seasonNumber", JNum 2)]] Sample.start
     = (Ret [JObj [("tv_title", JStr "Show");
                   ("tv_title_availability", JStr "PENDING");
                   ("tv_season", JStr "S02");
                   ("tv_season_availability", JStr "PENDING");
                   ("tv_episodes", JArr []);
                   ("request_date", JStr "2022-03-01T00:00:00.000Z")]],
        (tt, ["http://overseerr.local/api/v1/tv/7/season/2"])).
Proof.
  destruct (enrichment_failures_degrade Sample.three_pages)
    as (Hmovie & _ & Hlow & Hhigh & Hseason).
  destruct (enrichment_failures_degrade Sample.shows)
    as (_ & Hepisode & _).
  split; [| split; [| split; [| split]]].
  - apply (Hmovie None
             [("media", JObj [("tmdbId", JNum 11)]);
              ("createdAt", JStr "2020-12-31T23:59:59.000Z")]
             [("tmdbId", JNum 11)] "UNKNOWN" Sample.start
             (inl "All connection attempts failed") tt [Sample.new_request]);
      try reflexivity.
    left. eexists. reflexivity.
  - apply (Hepisode [("episodeNumber", JNum 7)] 7 Sample.start);
      reflexivity.
  - apply (Hlow 7). lia.
  - apply (Hhigh 12). lia.
  - apply (Hseason (JNum 7) Sample.show_details (JStr "Show") "PENDING"
             (JStr "2022-03-01T00:00:00.000Z") [("seasonNumber", JNum 2)]
             (JNum 2) "02" Sample.start "All connection attempts failed" tt
             []); reflexivity.
Defined.

(** C10.  When the TV-detail lookup of a TV request fails, or answers with
    an object that has no [seasons], the request adds no summary: the loop
    over the results goes on with the remaining requests as if the request
    had not been there, the lookup itself apart. *)
Theorem tv_lookup_failure_drops_request E start_date fields media
  availability w r s' rest :
  Py.dict_get fields "media" = Some (JObj media) ->
  has_id media "tvdbId" = true ->
  date_filter start_date (created_at_of fields) = Ret false ->
  media_status_mapping_get (status_of media) = Ret availability ->
  http_get E (tv_url E (id_of media "tmdbId")) (fst w) = (r, s') ->
  (exists msg, r = inl msg)
  \/ (exists details,
        r = inr (JObj details) /\ Py.dict_get details "seasons" = None) ->
  tv_result E start_date (JObj fields) w
  = (Ret [], requested w (tv_url E (id_of media "tmdbId")) s')
  /\ for_each (tv_result E start_date) (JObj fields :: rest) w
     = for_each (tv_result E start_date) rest
         (requested w (tv_url E (id_of media "tmdbId")) s').
Proof.
  intros Hm Hv Hd Ha Hg Hr.
  assert (Hrun : tv_result E start_date (JObj fields) w
                 = (Ret [], requested w (tv_url E (id_of media "tmdbId")) s')).
  { rewrite (tv_result_tv E start_date fields media w Hm Hv).
    rewrite (tv_request_run E start_date fields media w r s' availability
               (JArr []) [] Hd Ha Hg); [reflexivity | | reflexivity].
    apply response_lacks; [exact Hr | discriminate]. }
  split; [exact Hrun |].
  rewrite (for_each_cons_run _ _ _ _ _ _ Hrun). apply and_then_nil.
Qed.

Lemma tv_lookup_failure_drops_request_witness :
  tv_result Sample.three_pages None Sample.show_request Sample.start
  = (Ret [], (tt, ["http://overseerr.local/api/v1/tv/7"]))
  /\ for_each (tv_result Sample.three_pages None)
       [Sample.show_request; Sample.new_request] Sample.start
     = for_each (tv_result Sample.three_pages None) [Sample.new_request]
         (tt, ["http://overseerr.local/api/v1/tv/7"]).
Proof.
  apply (tv_lookup_failure_drops_request Sample.three_pages None
           [("media", JObj [("tmdbId", JNum 7); ("tvdbId", JNum 121361)]);
            ("createdAt", JStr "2022-03-01T00:00:00.000Z")]
           [("tmdbId", JNum 7); ("tvdbId", JNum 121361)] "UNKNOWN"
           Sample.start (inl "All connection attempts failed") tt
           [Sample.new_request]); try reflexivity.
  left. eexists. reflexivity.
Defined.

(** ** Further properties of the code *)

(** *** The status report *)

(** X1.  Whenever [get_overseerr_status] returns, the backend answered the
    status request with an object holding [version], and the string
    returned is the report of an available backend, listing the fields of
    that object in order.  The report of an unavailable backend is never
    returned: every other response ends in an exception.  The same holds
    of [get_overseerr_unavailable_tv_requests]. *)
Theorem status_report_only_when_available E w report w' :
  get_overseerr_status E w = (Ret report, w')
  \/ get_overseerr_unavailable_tv_requests E w = (Ret report, w') ->
  exists fields version s',
    http_get E (overseerr_url E ++ "/api/v1/status") (fst w)
      = (inr (JObj fields), s')
    /\ Py.dict_get fields "version" = Some version
    /\ w' = requested w (overseerr_url E ++ "/api/v1/status") s'
    /\ report
       = Py.nl ++ "---" ++ Py.nl
           ++ "Overseerr is available and these are the status data:"
           ++ Py.nl ++ "- "
           ++ Py.join (Py.nl ++ "- ") (status_lines E fields).
Proof.
  intros H.
  assert (Hrun : status_report E w = (Ret report, w'))
    by (destruct H as [H | H]; exact H).
  clear H. unfold status_report in Hrun.
  destruct (http_get E (overseerr_url E ++ "/api/v1/status") (fst w))
    as [r s'] eqn:Hg.
  rewrite (bind_run _ _ _ _ _ (request_run _ _ _ _ _ Hg)) in Hrun.
  apply bind_ret_inv in Hrun. destruct Hrun as (has_version & wa & Hv & Hrun).
  apply lift_ret_inv in Hv. destruct Hv as [Hv ->].
  destruct has_version.
  - apply bind_ret_inv in Hrun. destruct Hrun as (fields & wb & Hi & Hrun).
    apply lift_ret_inv in Hi. destruct Hi as [Hi ->].
    destruct r as [msg | body]; [discriminate Hv |].
    destruct body as [| | | | | body]; try discriminate Hi.
    cbn in Hi, Hv. inversion Hi. subst body.
    destruct (Py.dict_get fields "version") as [version |] eqn:Hversion;
      [| discriminate Hv].
    exists fields, version, s'. unfold ret in Hrun.
    injection Hrun as Hreport Hw.
    split; [reflexivity |]. split; [exact Hversion |].
    split; [symmetry; exact Hw | rewrite <- Hreport; reflexivity].
  - apply bind_ret_inv in Hrun. destruct Hrun as (x & wb & Hs & _).
    apply lift_ret_inv in Hs. destruct Hs as [Hs _].
    destruct (response_value r); discriminate Hs.
Qed.

Lemma status_report_only_when_available_witness :
  exists fields version s',
    http_get Sample.up "http://overseerr.local/api/v1/status" tt
      = (inr (JObj fields), s')
    /\ Py.dict_get fields "version" = Some version
    /\ snd (get_overseerr_status Sample.up Sample.start)
       = requested (E := Sample.up) Sample.start
           "http://overseerr.local/api/v1/status" s'
    /\ Py.nl ++ "---" ++ Py.nl
         ++ "Overseerr is available and these are the status data:"
         ++ Py.nl ++ "- version: 1.33.2" ++ Py.nl ++ "- commitsBehind: 0"
       = Py.nl ++ "---" ++ Py.nl
           ++ "Overseerr is available and these are the status data:"
           ++ Py.nl ++ "- "
           ++ Py.join (Py.nl ++ "- ") (status_lines Sample.up fields).
Proof.
  exact (status_report_only_when_available Sample.up Sample.start
           (Py.nl ++ "---" ++ Py.nl
              ++ "Overseerr is available and these are the status data:"
              ++ Py.nl ++ "- version: 1.33.2" ++ Py.nl ++ "- commitsBehind: 0")
           (snd (get_overseerr_status Sample.up Sample.start))
           (or_introl eq_refl)).
Defined.

(** *** The request list *)

(** X2.  The error value is in band: a page that was fetched, and whose
    body is an object with a [Request Error] key of its own, is taken for a
    failed fetch.  Both operations return the single-element error list
    carrying the value of that key and drop the results of the page and of
    the pages before it. *)
Theorem error_key_in_body_is_failure E fuel status start_date skip all_results
  w body s' value :
  http_get E (request_url E status skip) (fst w) = (inr (JObj body), s') ->
  Py.dict_get body "Request Error" = Some value ->
  request_loop E (movie_result E) (S fuel) status start_date skip
    all_results w
  = (Ret [JObj [("error", value)]],
     requested w (request_url E status skip) s')
  /\ request_loop E (tv_result E) (S fuel) status start_date skip
       all_results w
     = (Ret [JObj [("error", value)]],
        requested w (request_url E status skip) s').
Proof.
  intros Hg Hv. cbn [request_loop].
  rewrite !(bind_run _ _ _ _ _ (request_run _ _ _ _ _ Hg)).
  cbn [response_value]. unfold bind, lift, ret. cbn [Py.contains Py.getitem].
  rewrite Hv. split; reflexivity.
Qed.

Lemma error_key_in_body_is_failure_witness :
  get_movie_requests in_band_error None None 1 Sample.start
  = (Ret [JObj [("error", JStr "maintenance")]], (tt, [Sample.page_url "0"]))
  /\ get_tv_requests in_band_error None None 1 Sample.start
     = (Ret [JObj [("error", JStr "maintenance")]],
        (tt, [Sample.page_url "0"])).
Proof.
  exact (error_key_in_body_is_failure in_band_error 0 None None 0 []
           Sample.start
           [("Request Error", JStr "maintenance");
            ("results", JArr [Sample.dune_request])]
           tt (JStr "maintenance") eq_refl eq_refl).
Defined.

Lemma request_loop_more E per_result status start_date
  (Inv : nat -> world E -> Prop) :
  always_more E per_result status start_date Inv ->
  forall fuel k all_results w,
    Inv k w ->
    fst (request_loop E per_result fuel status start_date
           (take * Z.of_nat k) all_results w)
    = OutOfFuel.
Proof.
  intros Hmore fuel.
  induction fuel as [| fuel IH]; intros k acc w Hinv; [reflexivity |].
  destruct (Hmore k w Hinv)
    as (body & results & s' & pages & out & w1 & Hg & Hrep & Hlt & Hrun
        & Hnext).
  rewrite (request_loop_page E per_result _ _ _ _ _ _ _ _ _ _ _ _ Hg Hrep
             Hrun).
  rewrite page_index.
  destruct (Z.leb_spec pages (Z.of_nat k + 1)); [lia |].
  rewrite page_next. apply IH. exact Hnext.
Qed.

(** X3.  Nothing bounds the number of pages but the count the backend
    reports.  With a backend that, page after page, reports more pages than
    were fetched, neither operation returns: whatever bound is put on the
    number of pages fetched, the run exhausts it. *)
Theorem growing_page_count_never_ends E status start_date
  (Inv : nat -> world E -> Prop) w :
  Inv 0%nat w ->
  (always_more E (movie_result E) (validate_status status) start_date Inv ->
   forall fuel,
     fst (get_movie_requests E status start_date fuel w) = OutOfFuel)
  /\ (always_more E (tv_result E) (validate_status status) start_date Inv ->
      forall fuel,
        fst (get_tv_requests E status start_date fuel w) = OutOfFuel).
Proof.
  intros Hinv.
  split; intros Hmore fuel; unfold get_movie_requests, get_tv_requests;
    change 0 with (take * Z.of_nat 0);
    exact (request_loop_more E _ _ _ Inv Hmore fuel 0%nat [] w Hinv).
Qed.

Lemma endless_always_more per_result status start_date :
  always_more endless per_result status start_date
    (fun k w => fst w = k).
Proof.
  intros k [n log] Hk. cbn [fst] in Hk. subst n.
  exists [("pageInfo", JObj [("pages", JNum (Z.of_nat k + 2))]);
          ("results", JArr [])], [], (S k), (Z.of_nat k + 2), [].
  eexists. split; [reflexivity |]. split; [apply sample_page_reports |].
  split; [lia |]. split; reflexivity.
Qed.

Lemma growing_page_count_never_ends_witness :
  (forall fuel,
      fst (get_movie_requests endless None None fuel (0%nat, [])) = OutOfFuel)
  /\ (forall fuel,
         fst (get_tv_requests endless (Some "pending") None fuel (0%nat, []))
         = OutOfFuel).
Proof.
  split.
  - exact (proj1 (growing_page_count_never_ends endless None None
                    (fun k w => fst w = k) (0%nat, []) eq_refl)
             (endless_always_more _ _ _)).
  - exact (proj2 (growing_page_count_never_ends endless (Some "pending") None
                    (fun k w => fst w = k) (0%nat, []) eq_refl)
             (endless_always_more _ _ _)).
Defined.

(** *** The shape of the results *)

Tactic Notation "bind_inv" hyp(H) "as" ident(x) ident(Hx) :=
  apply bind_ret_inv in H;
  let w := fresh "w" in destruct H as (x & w & Hx & H).

Ltac lift_inv H := apply lift_ret_inv in H; destruct H as [H ->].

Lemma mapping_label code availability :
  media_status_mapping_get code = Ret availability -> In availability labels.
Proof.
  unfold media_status_mapping_get. intros H.
  assert (Hz : forall z,
             In (match media_status_mapping z with
                 | Some label => label
                 | None => "UNKNOWN"
                 end) labels).
  { intros z. destruct z as [| p | p]; cbn; auto.
    destruct p as [[[|p|]|[|p|]|]|[[|p|]|[|p|]|]|]; cbn; auto 6. }
  destruct code as [| b | z | s | l | f]; cbn in H; inversion H;
    try apply Hz; cbn; auto.
Qed.

Lemma request_loop_shape E (P : json -> Prop) per_result start_date :
  (forall result, yields P (per_result start_date result)) ->
  forall fuel status skip all_results w out w1,
    Forall P all_results ->
    request_loop E per_result fuel status start_date skip all_results w
    = (Ret out, w1) ->
    is_error_result out \/ Forall P out.
Proof.
  intros Hper fuel.
  induction fuel as [| fuel IH]; intros status skip acc w out w1 Hacc H.
  - discriminate H.
  - cbn [request_loop] in H.
    bind_inv H as response Hresponse. bind_inv H as failed Hfailed.
    destruct failed.
    + bind_inv H as message Hmessage. inversion H. left. exists message.
      reflexivity.
    + bind_inv H as results Hresults. bind_inv H as result_list Hlist.
      bind_inv H as new_results Hnew. bind_inv H as page_info Hinfo.
      bind_inv H as pages Hpages. bind_inv H as last Hlast.
      assert (Hall : Forall P (acc ++ new_results)).
      { apply Forall_app. split; [exact Hacc |].
        exact (for_each_yields P _ Hper _ _ _ _ Hnew). }
      destruct last.
      * inversion H. subst. right. exact Hall.
      * exact (IH _ _ _ _ _ _ Hall H).
Qed.

Lemma movie_result_shape E start_date result :
  yields movie_summary (movie_result E start_date result).
Proof.
  intros w out w1 H. unfold movie_result in H.
  bind_inv H as media_info Hmedia.
  destruct (negb (Py.truthy media_info)); [inversion H; constructor |].
  bind_inv H as tmdb Htmdb.
  destruct (negb (Py.truthy tmdb)); [inversion H; constructor |].
  bind_inv H as tvdb Htvdb.
  destruct (Py.truthy tvdb); [inversion H; constructor |].
  unfold movie_request in H.
  bind_inv H as created_at Hcreated. bind_inv H as too_old Hold.
  destruct too_old; [inversion H; constructor |].
  bind_inv H as movie_id Hid. bind_inv H as details Hdetails.
  bind_inv H as code Hcode. bind_inv H as availability Ha. lift_inv Ha.
  bind_inv H as title Htitle. inversion H.
  constructor; [| constructor].
  exists title, availability, created_at.
  split; [reflexivity | exact (mapping_label _ _ Ha)].
Qed.

Lemma episode_entry_shape E episode :
  yields episode_record (episode_entry E episode).
Proof.
  intros w out w1 H. unfold episode_entry in H.
  bind_inv H as number Hnumber. bind_inv H as number_str Hstr.
  bind_inv H as name Hname. inversion H.
  constructor; [| constructor]. exists number_str, name. reflexivity.
Qed.

Lemma season_result_shape E tv_id tv_details availability created_at season :
  In availability labels ->
  yields tv_summary
    (season_result E tv_id tv_details availability created_at season).
Proof.
  intros Hlabel w out w1 H. unfold season_result in H.
  bind_inv H as number Hnumber.
  destruct (Py.eq_zero number); [inversion H; constructor |].
  bind_inv H as number_str Hstr. bind_inv H as details Hdetails.
  bind_inv H as episodes Hepisodes. bind_inv H as episode_list Hlist.
  bind_inv H as episode_details Hrun. bind_inv H as title Htitle.
  inversion H. constructor; [| constructor].
  exists title, availability, number_str, episode_details, created_at.
  split; [reflexivity |]. split; [exact Hlabel |].
  exact (for_each_yields _ _ (episode_entry_shape E) _ _ _ _ Hrun).
Qed.

Lemma tv_result_shape E start_date result :
  yields tv_summary (tv_result E start_date result).
Proof.
  intros w out w1 H. unfold tv_result in H.
  bind_inv H as media_info Hmedia.
  destruct (negb (Py.truthy media_info)); [inversion H; constructor |].
  bind_inv H as tvdb Htvdb.
  destruct (negb (Py.truthy tvdb)); [inversion H; constructor |].
  unfold tv_request in H.
  bind_inv H as created_at Hcreated. bind_inv H as too_old Hold.
  destruct too_old; [inversion H; constructor |].
  bind_inv H as tv_id Hid. bind_inv H as details Hdetails.
  bind_inv H as code Hcode. bind_inv H as availability Ha. lift_inv Ha.
  bind_inv H as seasons Hseasons. bind_inv H as season_list Hlist.
  revert H. apply for_each_yields. intros season.
  apply season_result_shape. exact (mapping_label _ _ Ha).
Qed.

(** X5.  Whatever the backend answers, a list that [get_movie_requests]
    returns is either the single-element error list or made of movie
    summaries only: dicts with exactly the keys [title],
    [media_availability] and [request_date], in that order, whose
    availability is one of the five labels. *)
Theorem movie_requests_shape E status start_date fuel w out w' :
  get_movie_requests E status start_date fuel w = (Ret out, w') ->
  is_error_result out \/ Forall movie_summary out.
Proof.
  unfold get_movie_requests. apply request_loop_shape.
  - apply movie_result_shape.
  - constructor.
Qed.

Lemma movie_requests_shape_witness :
  is_error_result
    [JObj [("title", JStr "Dune"); ("media_availability", JStr "AVAILABLE");
           ("request_date", JStr "2022-03-01T00:00:00.000Z")]]
  \/ Forall movie_summary
       [JObj [("title", JStr "Dune"); ("media_availability", JStr "AVAILABLE");
              ("request_date", JStr "2022-03-01T00:00:00.000Z")]].
Proof.
  exact (movie_requests_shape Sample.movies None None 1 Sample.start _
           (snd (get_movie_requests Sample.movies None None 1 Sample.start))
           eq_refl).
Defined.

(** X6.  Whatever the backend answers, a list that [get_tv_requests]
    returns is either the single-element error list or made of season
    summaries only: dicts with the six keys of lines 318-325, whose show
    and season availabilities are the same label, one of the five, whose
    season is [S] followed by the formatted number, and whose episodes are
    all dicts with the keys [episode_number] (a string) and
    [episode_name]. *)
Theorem tv_requests_shape E status start_date fuel w out w' :
  get_tv_requests E status start_date fuel w = (Ret out, w') ->
  is_error_result out \/ Forall tv_summary out.
Proof.
  unfold get_tv_requests. apply request_loop_shape.
  - apply tv_result_shape.
  - constructor.
Qed.

Lemma tv_requests_shape_witness :
  is_error_result
    [JObj [("tv_title", JStr "Show");
           ("tv_title_availability", JStr "UNKNOWN");
           ("tv_season", JStr "S01");
           ("tv_season_availability", JStr "UNKNOWN");
           ("tv_episodes",
            JArr [JObj [("episode_number", JStr "01");
                        ("episode_name", JStr "Pilot")]]);
           ("request_date", JStr "2022-03-01T00:00:00.000Z")]]
  \/ Forall tv_summary
       [JObj [("tv_title", JStr "Show");
              ("tv_title_availability", JStr "UNKNOWN");
              ("tv_season", JStr "S01");
              ("tv_season_availability", JStr "UNKNOWN");
              ("tv_episodes",
               JArr [JObj [("episode_number", JStr "01");
                           ("episode_name", JStr "Pilot")]]);
              ("request_date", JStr "2022-03-01T00:00:00.000Z")]].
Proof.
  exact (tv_requests_shape Sample.shows None None 1 Sample.start _
           (snd (get_tv_requests Sample.shows None None 1 Sample.start))
           eq_refl).
Defined.

(** *** The start date *)

Lemma date_filter_passed start_date created_at :
  start_date <> "" ->
  date_filter (Some start_date) created_at = Ret false ->
  exists c, created_at = JStr c /\ Py.str_gt start_date c = false.
Proof.
  intros Hne H. unfold date_filter, str_truthy in H.
  destruct (String.eqb_spec start_date "") as [Heq | _]; [contradiction |].
  cbn [negb] in H. destruct created_at as [| b | z | c | l | f];
    try discriminate H.
  exists c. split; [reflexivity |]. cbn in H. inversion H. reflexivity.
Qed.

Lemma movie_result_not_before E start_date result :
  start_date <> "" ->
  yields (not_before start_date) (movie_result E (Some start_date) result).
Proof.
  intros Hne w out w1 H. unfold movie_result in H.
  bind_inv H as media_info Hmedia.
  destruct (negb (Py.truthy media_info)); [inversion H; constructor |].
  bind_inv H as tmdb Htmdb.
  destruct (negb (Py.truthy tmdb)); [inversion H; constructor |].
  bind_inv H as tvdb Htvdb.
  destruct (Py.truthy tvdb); [inversion H; constructor |].
  unfold movie_request in H.
  bind_inv H as created_at Hcreated. bind_inv H as too_old Hold. lift_inv Hold.
  destruct too_old; [inversion H; constructor |].
  destruct (date_filter_passed _ _ Hne Hold) as (c & -> & Hc).
  bind_inv H as movie_id Hid. bind_inv H as details Hdetails.
  bind_inv H as code Hcode. bind_inv H as availability Ha.
  bind_inv H as title Htitle. inversion H.
  constructor; [| constructor]. exists c. split; [reflexivity | exact Hc].
Qed.

Lemma tv_result_not_before E start_date result :
  start_date <> "" ->
  yields (not_before start_date) (tv_result E (Some start_date) result).
Proof.
  intros Hne w out w1 H. unfold tv_result in H.
  bind_inv H as media_info Hmedia.
  destruct (negb (Py.truthy media_info)); [inversion H; constructor |].
  bind_inv H as tvdb Htvdb.
  destruct (negb (Py.truthy tvdb)); [inversion H; constructor |].
  unfold tv_request in H.
  bind_inv H as created_at Hcreated. bind_inv H as too_old Hold. lift_inv Hold.
  destruct too_old; [inversion H; constructor |].
  destruct (date_filter_passed _ _ Hne Hold) as (c & -> & Hc).
  bind_inv H as tv_id Hid. bind_inv H as details Hdetails.
  bind_inv H as code Hcode. bind_inv H as availability Ha.
  bind_inv H as seasons Hseasons. bind_inv H as season_list Hlist.
  revert H. apply for_each_yields. intros season v outs v1 H.
  unfold season_result in H.
  bind_inv H as number Hnumber.
  destruct (Py.eq_zero number); [inversion H; constructor |].
  bind_inv H as number_str Hstr. bind_inv H as season_details Hsd.
  bind_inv H as episodes Hepisodes. bind_inv H as episode_list Hel.
  bind_inv H as episode_details Hrun. bind_inv H as title Htitle.
  inversion H. constructor; [| constructor].
  exists c. split; [reflexivity | exact Hc].
Qed.

(** X7.  With a non-empty start date, no summary either operation returns
    is older than it: the [request_date] of every summary is a string that
    the start date does not exceed in Python's string order. *)
Theorem no_summary_before_start_date E status start_date fuel w out w' :
  start_date <> "" ->
  (get_movie_requests E status (Some start_date) fuel w = (Ret out, w') ->
   is_error_result out \/ Forall (not_before start_date) out)
  /\ (get_tv_requests E status (Some start_date) fuel w = (Ret out, w') ->
      is_error_result out \/ Forall (not_before start_date) out).
Proof.
  intros Hne. unfold get_movie_requests, get_tv_requests.
  split; apply request_loop_shape; try constructor; intros result.
  - exact (movie_result_not_before E start_date result Hne).
  - exact (tv_result_not_before E start_date result Hne).
Qed.

Lemma no_summary_before_start_date_witness :
  is_error_result
    [JObj [("title", JStr "Unknown Title");
           ("media_availability", JStr "PROCESSING");
           ("request_date", JStr "2021-06-01T00:00:00.000Z")]]
  \/ Forall (not_before "2021-01-01T00:00:00.000Z")
       [JObj [("title", JStr "Unknown Title");
              ("media_availability", JStr "PROCESSING");
              ("request_date", JStr "2021-06-01T00:00:00.000Z")]].
Proof.
  assert (Hne : "2021-01-01T00:00:00.000Z" <> "") by discriminate.
  exact (proj1 (no_summary_before_start_date Sample.three_pages None
                  "2021-01-01T00:00:00.000Z" 3 Sample.start _
                  (snd (get_movie_requests Sample.three_pages None
                          (Some "2021-01-01T00:00:00.000Z") 3 Sample.start))
                  Hne)
           eq_refl).
Defined.

Lemma bind_raise_run {E : Env} {A B : Type} (m : M E A) (f : A -> M E B)
  w e w1 :
  m w = (Raise e, w1) -> bind m f w = (Raise e, w1).
Proof. intros H. unfold bind. rewrite H. reflexivity. Qed.

Lemma for_each_ext {E : Env} {A B : Type} (f g : A -> M E (list B)) :
  (forall x w, f x w = g x w) ->
  forall xs w, for_each f xs w = for_each g xs w.
Proof.
  intros Hfg xs. induction xs as [| x xs IH]; intros w; cbn [for_each].
  - reflexivity.
  - unfold bind. rewrite Hfg.
    destruct (g x w) as [[out | e | ] w1]; try reflexivity.
    rewrite IH. reflexivity.
Qed.

Lemma bind_ext_both {E : Env} {A B : Type} (m m' : M E A)
  (f g : A -> M E B) w :
  (forall w0, m w0 = m' w0) ->
  (forall a w1, f a w1 = g a w1) ->
  bind m f w = bind m' g w.
Proof.
  intros Hm Hfg. unfold bind. rewrite Hm.
  destruct (m' w) as [[a | e | ] w1]; [apply Hfg | reflexivity | reflexivity].
Qed.

Lemma request_loop_same_results E per_result start_date start_date' :
  (forall result w,
      per_result start_date result w = per_result start_date' result w) ->
  forall fuel status skip all_results w,
    request_loop E per_result fuel status start_date skip all_results w
    = request_loop E per_result fuel status start_date' skip all_results w.
Proof.
  intros Hper fuel. induction fuel as [| fuel IH]; intros status skip acc w.
  - reflexivity.
  - cbn [request_loop].
    apply bind_ext. intros response w1.
    apply bind_ext. intros failed w2. destruct failed; [reflexivity |].
    do 2 (apply bind_ext; intros ? ?).
    apply bind_ext_both; [apply (for_each_ext _ _ Hper) |].
    intros new_results w5.
    do 3 (apply bind_ext; intros ? ?).
    match goal with |- (if ?b then _ else _) _ = _ => destruct b end;
      [reflexivity | apply IH].
Qed.

(** X8.  An empty start date is no start date: with [start_date = ""] each
    operation runs exactly as it does without the argument. *)
Theorem empty_start_date_is_no_filter E status fuel w :
  get_movie_requests E status (Some "") fuel w
  = get_movie_requests E status None fuel w
  /\ get_tv_requests E status (Some "") fuel w
     = get_tv_requests E status None fuel w.
Proof.
  unfold get_movie_requests, get_tv_requests.
  split; apply request_loop_same_results; intros result w0; reflexivity.
Qed.

(** *** Raw requests with missing or odd fields *)

(** X9.  A raw request without a [media] field, or whose [media] is a value
    Python takes for false ([null], an empty object, 0, an empty string or
    list), is dropped by both operations: no summary, no lookup, no
    exception. *)
Theorem request_without_media_dropped E fields :
  Py.truthy (Py.field_or fields "media" (JObj [])) = false ->
  dropped_by (movie_result E) fields /\ dropped_by (tv_result E) fields.
Proof.
  intros Hm. split; intros sd before after w; apply for_each_skip; intros w0.
  - unfold movie_result, bind, lift, ret. cbn [Py.get]. rewrite Hm.
    reflexivity.
  - unfold tv_result, bind, lift, ret. cbn [Py.get]. rewrite Hm.
    reflexivity.
Qed.

Lemma request_without_media_dropped_witness :
  (dropped_by (movie_result Sample.movies)
     [("createdAt", JStr "2022-03-01T00:00:00.000Z")]
   /\ dropped_by (tv_result Sample.movies)
        [("createdAt", JStr "2022-03-01T00:00:00.000Z")])
  /\ (dropped_by (movie_result Sample.movies) [("media", JNull)]
      /\ dropped_by (tv_result Sample.movies) [("media", JNull)]).
Proof.
  split.
  - exact (request_without_media_dropped Sample.movies
             [("createdAt", JStr "2022-03-01T00:00:00.000Z")] eq_refl).
  - exact (request_without_media_dropped Sample.movies [("media", JNull)]
             eq_refl).
Defined.

Lemma str_gt_empty s : s <> "" -> Py.str_gt s "" = true.
Proof. destruct s as [| a s]; [contradiction | reflexivity]. Qed.

Lemma date_filter_truthy s created_at :
  s <> "" -> date_filter (Some s) created_at = Py.gt_str s created_at.
Proof.
  intros Hne. unfold date_filter, str_truthy.
  destruct (String.eqb_spec s "") as [Heq | _]; [contradiction | reflexivity].
Qed.

(** X10.  A raw request without a [createdAt] field is read as created at
    the empty string: every non-empty start date excludes it, from both
    operations, without any lookup. *)
Theorem request_without_date_excluded E start_date fields media w :
  start_date <> "" ->
  Py.dict_get fields "media" = Some (JObj media) ->
  Py.dict_get fields "createdAt" = None ->
  movie_result E (Some start_date) (JObj fields) w = (Ret [], w)
  /\ tv_result E (Some start_date) (JObj fields) w = (Ret [], w).
Proof.
  intros Hne Hm Hc.
  assert (Hcreated : created_at_of fields = JStr "")
    by (unfold created_at_of, Py.field_or; rewrite Hc; reflexivity).
  assert (Hx : excluded_by_date (Some start_date) "" = true).
  { pose proof (str_gt_empty start_date Hne) as Hgt.
    unfold Py.str_gt in Hgt. unfold excluded_by_date.
    destruct (start_date ?= "")%string; try discriminate Hgt. reflexivity. }
  split.
  - rewrite (movie_result_cases E _ fields media w Hm),
      (movie_request_date E _ fields media "" w Hcreated), Hx.
    destruct (has_id media "tmdbId" && negb (has_id media "tvdbId"));
      reflexivity.
  - rewrite (tv_result_cases E _ fields media w Hm),
      (tv_request_date E _ fields media "" w Hcreated), Hx.
    destruct (has_id media "tvdbId"); reflexivity.
Qed.

Lemma request_without_date_excluded_witness :
  movie_result Sample.movies (Some "2000") (JObj [("media",
    JObj [("tmdbId", JNum 42)])]) Sample.start = (Ret [], Sample.start)
  /\ tv_result Sample.movies (Some "2000") (JObj [("media",
       JObj [("tmdbId", JNum 42)])]) Sample.start = (Ret [], Sample.start).
Proof.
  assert (Hne : "2000" <> "") by discriminate.
  exact (request_without_date_excluded Sample.movies "2000"
           [("media", JObj [("tmdbId", JNum 42)])] [("tmdbId", JNum 42)]
           Sample.start Hne eq_refl eq_refl).
Defined.

(** X11.  The date test compares strings only.  With a non-empty start
    date, a movie or TV request whose [createdAt] is present but not a
    string raises [TypeError] before any lookup, and the exception ends the
    loop over the results: the requests after it are not processed. *)
Theorem non_string_date_raises E start_date fields media created_at w rest :
  start_date <> "" ->
  Py.dict_get fields "media" = Some (JObj media) ->
  Py.dict_get fields "createdAt" = Some created_at ->
  (forall c, created_at <> JStr c) ->
  (has_id media "tmdbId" = true ->
   has_id media "tvdbId" = false ->
   for_each (movie_result E (Some start_date)) (JObj fields :: rest) w
   = (Raise TypeError, w))
  /\ (has_id media "tvdbId" = true ->
      for_each (tv_result E (Some start_date)) (JObj fields :: rest) w
      = (Raise TypeError, w)).
Proof.
  intros Hne Hm Hc Hnot.
  assert (Hcreated : created_at_of fields = created_at)
    by (unfold created_at_of, Py.field_or; rewrite Hc; reflexivity).
  assert (Hraise : date_filter (Some start_date) created_at = Raise TypeError).
  { rewrite (date_filter_truthy _ _ Hne).
    destruct created_at as [| b | z | c | l | f]; try reflexivity.
    exfalso. exact (Hnot c eq_refl). }
  split.
  - intros Ht Hv. cbn [for_each]. apply bind_raise_run.
    rewrite (movie_result_movie E _ fields media w Hm Ht Hv).
    unfold movie_request, bind, lift. cbn [Py.get].
    fold (created_at_of fields). rewrite Hcreated, Hraise. reflexivity.
  - intros Hv. cbn [for_each]. apply bind_raise_run.
    rewrite (tv_result_tv E _ fields media w Hm Hv).
    unfold tv_request, bind, lift. cbn [Py.get].
    fold (created_at_of fields). rewrite Hcreated, Hraise. reflexivity.
Qed.

Lemma non_string_date_raises_witness :
  for_each (movie_result Sample.movies (Some "2000"))
    [JObj [("media", JObj [("tmdbId", JNum 42)]);
           ("createdAt", JNum 1646092800)];
     Sample.dune_request] Sample.start
  = (Raise TypeError, Sample.start)
  /\ for_each (tv_result Sample.shows (Some "2000"))
       [JObj [("media", JObj [("tmdbId", JNum 7); ("tvdbId", JNum 121361)]);
              ("createdAt", JNull)];
        Sample.show_request] Sample.start
     = (Raise TypeError, Sample.start).
Proof.
  assert (Hne : "2000" <> "") by discriminate.
  split.
  - apply (proj1 (non_string_date_raises Sample.movies "2000"
                    [("media", JObj [("tmdbId", JNum 42)]);
                     ("createdAt", JNum 1646092800)]
                    [("tmdbId", JNum 42)] (JNum 1646092800) Sample.start
                    [Sample.dune_request] Hne eq_refl eq_refl
                    ltac:(discriminate)));
      reflexivity.
  - apply (proj2 (non_string_date_raises Sample.shows "2000"
                    [("media",
                      JObj [("tmdbId", JNum 7); ("tvdbId", JNum 121361)]);
                     ("createdAt", JNull)]
                    [("tmdbId", JNum 7); ("tvdbId", JNum 121361)] JNull
                    Sample.start [Sample.show_request] Hne eq_refl eq_refl
                    ltac:(discriminate)));
      reflexivity.
Defined.

(** X12.  No raw request is handled by both operations.  Whatever the
    fields of its media object, at least one of [get_movie_requests] and
    [get_tv_requests] drops it: the first handles a request only if its
    [tvdbId] is unset, the second only if it is set. *)
Theorem no_request_in_both_lists E fields media :
  Py.dict_get fields "media" = Some (JObj media) ->
  dropped_by (movie_result E) fields \/ dropped_by (tv_result E) fields.
Proof.
  intros Hm. destruct (has_id media "tvdbId") eqn:Hv.
  - left. intros sd before after w. apply for_each_skip. intros w0.
    apply (movie_result_dropped E sd fields media w0 Hm). right. exact Hv.
  - right. intros sd before after w. apply for_each_skip. intros w0.
    apply (tv_result_dropped E sd fields media w0 Hm Hv).
Qed.

Lemma no_request_in_both_lists_witness :
  dropped_by (movie_result Sample.movies)
    [("media", JObj [("tmdbId", JNum 42); ("status", JNum 5)]);
     ("createdAt", JStr "2022-03-01T00:00:00.000Z")]
  \/ dropped_by (tv_result Sample.movies)
       [("media", JObj [("tmdbId", JNum 42); ("status", JNum 5)]);
        ("createdAt", JStr "2022-03-01T00:00:00.000Z")].
Proof.
  exact (no_request_in_both_lists Sample.movies
           [("media", JObj [("tmdbId", JNum 42); ("status", JNum 5)]);
            ("createdAt", JStr "2022-03-01T00:00:00.000Z")]
           [("tmdbId", JNum 42); ("status", JNum 5)] eq_refl).
Defined.

(** *** The endpoints requested *)

Lemma string_app_assoc (a b c : string) : (a ++ b) ++ c = a ++ b ++ c.
Proof.
  induction a as [| x a IH]; cbn; [reflexivity | rewrite IH; reflexivity].
Qed.

Section Touches.

Context {E : Env}.

Variable P : string -> Prop.

Lemma touches_ret {A : Type} (a : A) : touches P (@ret E A a).
Proof.
  intros w. exists []. split; [symmetry; apply app_nil_r | constructor].
Qed.

Lemma touches_lift {A : Type} (o : outcome A) : touches P (@lift E A o).
Proof.
  intros w. exists []. split; [symmetry; apply app_nil_r | constructor].
Qed.

Lemma touches_bind {A B : Type} (m : M E A) (f : A -> M E B) :
  touches P m -> (forall a, touches P (f a)) -> touches P (bind m f).
Proof.
  intros Hm Hf w. unfold bind. destruct (Hm w) as (e1 & H1 & F1).
  destruct (m w) as [[a | e | ] w1]; cbn [snd] in *;
    try (exists e1; split; assumption).
  destruct (Hf a w1) as (e2 & H2 & F2). exists (e1 ++ e2)%list. split.
  - rewrite H2, H1. symmetry. apply app_assoc.
  - apply Forall_app. split; assumption.
Qed.

Lemma touches_for_each {A B : Type} (body : A -> M E (list B)) :
  (forall x, touches P (body x)) -> forall xs, touches P (for_each body xs).
Proof.
  intros Hbody xs. induction xs as [| x xs IH]; cbn [for_each].
  - apply touches_ret.
  - apply touches_bind; [apply Hbody | intros out].
    apply touches_bind; [exact IH | intros outs]. apply touches_ret.
Qed.

Lemma touches_request url :
  P url -> touches P (make_overseerr_request E url).
Proof.
  intros Hurl w. unfold make_overseerr_request.
  destruct (http_get E url (fst w)) as [r s']. exists [url].
  split; [reflexivity | constructor; [exact Hurl | constructor]].
Qed.

End Touches.

Ltac touch :=
  repeat first
    [ apply touches_ret
    | apply touches_lift
    | apply touches_for_each; intros ?
    | apply touches_bind; [| intros ?]
    | match goal with
      | |- touches _ (if ?b then _ else _) => destruct b
      end ].

Lemma touches_request_loop E (P : string -> Prop) per_result :
  (forall start_date result, touches P (per_result start_date result)) ->
  (forall status skip, P (request_url E status skip)) ->
  forall fuel status start_date skip all_results,
    touches P
      (request_loop E per_result fuel status start_date skip all_results).
Proof.
  intros Hper Hurl fuel.
  induction fuel as [| fuel IH]; intros status sd skip acc;
    cbn [request_loop].
  - apply touches_lift.
  - apply touches_bind; [apply touches_request; apply Hurl | intros response].
    apply touches_bind; [apply touches_lift | intros failed].
    destruct failed; [touch |].
    apply touches_bind; [apply touches_lift | intros results].
    apply touches_bind; [apply touches_lift | intros result_list].
    apply touches_bind; [apply touches_for_each; apply Hper |].
    intros new_results.
    apply touches_bind; [apply touches_lift | intros page_info].
    apply touches_bind; [apply touches_lift | intros pages].
    apply touches_bind; [apply touches_lift | intros last].
    destruct last; [apply touches_ret | apply IH].
Qed.

Lemma request_url_under E status skip :
  under (overseerr_url E ++ "/api/v1/request?") (request_url E status skip).
Proof.
  exists (query_string E status skip). unfold request_url.
  symmetry. apply string_app_assoc.
Qed.

Lemma movie_url_under E movie_id :
  under (overseerr_url E ++ "/api/v1/movie/") (movie_url E movie_id).
Proof.
  exists (py_str E movie_id). unfold movie_url.
  symmetry. apply string_app_assoc.
Qed.

Lemma tv_url_under E tv_id :
  under (overseerr_url E ++ "/api/v1/tv/") (tv_url E tv_id).
Proof.
  exists (py_str E tv_id). unfold tv_url. symmetry. apply string_app_assoc.
Qed.

Lemma season_url_under E tv_id season_id :
  under (overseerr_url E ++ "/api/v1/tv/") (season_url E tv_id season_id).
Proof.
  exists (py_str E tv_id ++ "/season/" ++ py_str E season_id).
  unfold season_url. symmetry. apply string_app_assoc.
Qed.

(** X13.  The operations request nothing but their own endpoints under the
    configured base URL, on every run and whatever the backend answers:
    [get_movie_requests] only the request list and movie details,
    [get_tv_requests] only the request list and TV (show or season)
    details. *)
Theorem only_own_endpoints E status start_date fuel :
  touches
    (fun url =>
       under (overseerr_url E ++ "/api/v1/request?") url
       \/ under (overseerr_url E ++ "/api/v1/movie/") url)
    (get_movie_requests E status start_date fuel)
  /\ touches
       (fun url =>
          under (overseerr_url E ++ "/api/v1/request?") url
          \/ under (overseerr_url E ++ "/api/v1/tv/") url)
       (get_tv_requests E status start_date fuel).
Proof.
  unfold get_movie_requests, get_tv_requests.
  split; apply touches_request_loop;
    try (intros st skip; left; apply request_url_under);
    intros sd result.
  - unfold movie_result, movie_request, get_movie_details. touch.
    apply touches_request. right. apply movie_url_under.
  - unfold tv_result, tv_request. touch; apply touches_request; right;
      first [apply tv_url_under | apply season_url_under].
Qed.

(** X14.  The TV lookups are keyed by [tmdbId] alone.  A TV request that
    passes the date filter and has no [tmdbId] (or a [null] one) is looked
    up under the identifier [None]: the request made for it goes to
    [/api/v1/tv/None]. *)
Theorem tv_request_without_tmdb_id E start_date fields media w :
  Py.dict_get fields "media" = Some (JObj media) ->
  has_id media "tvdbId" = true ->
  id_of media "tmdbId" = JNull ->
  date_filter start_date (created_at_of fields) = Ret false ->
  tv_url E (id_of media "tmdbId") = overseerr_url E ++ "/api/v1/tv/None"
  /\ exists extra,
       snd (snd (tv_result E start_date (JObj fields) w))
       = (snd w ++ tv_url E (id_of media "tmdbId") :: extra)%list.
Proof.
  intros Hm Hv Hid Hd.
  rewrite (tv_result_tv E start_date fields media w Hm Hv).
  unfold tv_request. unfold bind at 1 2 3, lift at 1 2 3. cbn [Py.get].
  fold (created_at_of fields). rewrite Hd.
  fold (id_of media "tmdbId"). rewrite Hid. split; [reflexivity |].
  match goal with
  | |- context [bind (get_tv_details E JNull) ?K w] =>
      assert (HK : forall details, touches (fun _ => True) (K details))
  end.
  { intros details. touch. apply touches_request. exact I. }
  unfold bind at 1, get_tv_details, make_overseerr_request.
  destruct (http_get E (tv_url E JNull) (fst w)) as [r s'].
  destruct (HK (response_value r) (requested w (tv_url E JNull) s'))
    as (extra & Hlog & _).
  exists extra. etransitivity; [exact Hlog |].
  unfold requested. cbn [snd]. rewrite <- app_assoc. reflexivity.
Qed.

Lemma tv_request_without_tmdb_id_witness :
  tv_url Sample.shows JNull = "http://overseerr.local/api/v1/tv/None"
  /\ exists extra,
       snd (snd (tv_result Sample.shows None no_tmdb_request Sample.start))
       = ([] ++ tv_url Sample.shows JNull :: extra)%list.
Proof.
  exact (tv_request_without_tmdb_id Sample.shows None
           [("media", JObj [("tvdbId", JNum 121361)]);
            ("createdAt", JStr "2022-03-01T00:00:00.000Z")]
           [("tvdbId", JNum 121361)] Sample.start
           eq_refl eq_refl eq_refl eq_refl).
Defined.

(** *** Seasons in order *)

Lemma seasons_labelled E tv_id tv_details availability created_at title :
  Py.get tv_details "name" (JStr "Unknown TV Show") = Ret title ->
  forall seasons numbers,
    Forall2
      (fun season n => Py.get season "seasonNumber" (JNum 0) = Ret (JNum n))
      seasons numbers ->
    (forall n, In n numbers -> n <> 0 -> season_served E tv_id n) ->
    forall w,
    exists out w',
      for_each (season_result E tv_id tv_details availability created_at)
        seasons w = (Ret out, w')
      /\ season_labels out = expected_labels numbers.
Proof.
  intros Htitle seasons numbers Hall.
  induction Hall as [| season n seasons numbers Hn Hall IH];
    intros Hserved w.
  - exists [], w. split; reflexivity.
  - assert (Hrest : forall m, In m numbers -> m <> 0 -> season_served E tv_id m)
      by (intros m Hin; apply Hserved; right; exact Hin).
    destruct (Z.eqb_spec n 0) as [-> | Hnz].
    + destruct (IH Hrest w) as (out & w' & Hrun & Hlabels).
      exists out, w'. split; [| exact Hlabels].
      rewrite (for_each_cons_run _ _ _ _ _ _
                 (season_result_special E _ _ _ _ _ _ w Hn eq_refl)).
      rewrite Hrun. reflexivity.
    + destruct (Hserved n (or_introl eq_refl) Hnz w)
        as (r & s' & episodes & episode_list & details & Hg & He & Hi & Hd).
      assert (Hz : Py.eq_zero (JNum n) = false)
        by (cbn; destruct (Z.eqb_spec n 0); [contradiction | reflexivity]).
      pose proof (season_result_run E tv_id tv_details availability created_at
                    season (JNum n) (Py.pad2 n) w r s' episodes episode_list
                    details title Hn Hz eq_refl Hg He Hi Hd Htitle) as Hone.
      destruct (IH Hrest (requested w (season_url E tv_id (JNum n)) s'))
        as (out & w' & Hrun & Hlabels).
      eexists. exists w'. split.
      * rewrite (for_each_cons_run _ _ _ _ _ _ Hone). rewrite Hrun.
        reflexivity.
      * unfold expected_labels. cbn [filter].
        destruct (Z.eqb_spec n 0); [contradiction |]. cbn [negb map].
        unfold season_labels. cbn [app map field Py.dict_get].
        cbn. fold (season_labels out). rewrite Hlabels. reflexivity.
Qed.

(** X15.  A TV request that passes the date filter and whose lookup
    answers with an object holding a list of seasons gives one summary for
    each season with a non-zero number, in the order of the backend,
    labelled [S] and the number in two digits; failed season lookups do not
    change that. *)
Theorem seasons_reported_in_order E start_date fields media availability w
  details s' seasons numbers :
  Py.dict_get fields "media" = Some (JObj media) ->
  has_id media "tvdbId" = true ->
  date_filter start_date (created_at_of fields) = Ret false ->
  media_status_mapping_get (status_of media) = Ret availability ->
  http_get E (tv_url E (id_of media "tmdbId")) (fst w)
    = (inr (JObj details), s') ->
  Py.dict_get details "seasons" = Some (JArr seasons) ->
  Forall2
    (fun season n => Py.get season "seasonNumber" (JNum 0) = Ret (JNum n))
    seasons numbers ->
  (forall n, In n numbers -> n <> 0 ->
             season_served E (id_of media "tmdbId") n) ->
  exists out w',
    tv_result E start_date (JObj fields) w = (Ret out, w')
    /\ season_labels out = expected_labels numbers.
Proof.
  intros Hm Hv Hd Ha Hg Hs Hall Hserved.
  rewrite (tv_result_tv E start_date fields media w Hm Hv).
  rewrite (tv_request_run E start_date fields media w _ s' availability
             (JArr seasons) seasons Hd Ha Hg).
  - apply (seasons_labelled E _ _ _ _
             (Py.field_or details "name" (JStr "Unknown TV Show")));
      [reflexivity | exact Hall | exact Hserved].
  - cbn [response_value Py.get]. unfold Py.field_or. rewrite Hs. reflexivity.
  - reflexivity.
Qed.

Lemma seasons_reported_in_order_witness :
  exists out w',
    tv_result Sample.shows None Sample.show_request Sample.start
    = (Ret out, w')
    /\ season_labels out = [Some (JStr "S01")].
Proof.
  apply (seasons_reported_in_order Sample.shows None
           [("media", JObj [("tmdbId", JNum 7); ("tvdbId", JNum 121361)]);
            ("createdAt", JStr "2022-03-01T00:00:00.000Z")]
           [("tmdbId", JNum 7); ("tvdbId", JNum 121361)] "UNKNOWN"
           Sample.start
           [("name", JStr "Show");
            ("seasons", JArr [JObj [("seasonNumber", JNum 0)];
                              JObj [("seasonNumber", JNum 1)]])]
           tt
           [JObj [("seasonNumber", JNum 0)]; JObj [("seasonNumber", JNum 1)]]
           [0; 1]); try reflexivity.
  - repeat constructor.
  - intros n [<- | [<- | []]] Hnz; [contradiction |].
    intros [[] log]. do 5 eexists.
    split; [reflexivity |]. split; [reflexivity |].
    split; reflexivity.
Defined.

(** *** The two-digit format *)

Lemma dec_parse n : parse_int (Py.dec n) = Some n.
Proof.
  unfold parse_int. rewrite dec_read. cbn [option_map].
  rewrite DecimalZ.of_to. reflexivity.
Qed.

Lemma pad2_parse_small k :
  (k < 10)%nat -> parse_int (Py.pad2 (Z.of_nat k)) = Some (Z.of_nat k).
Proof.
  intros Hk. do 10 (destruct k as [| k]; [reflexivity |]). lia.
Qed.

Lemma pad2_parse n : parse_int (Py.pad2 n) = Some n.
Proof.
  destruct ((0 <=? n) && (n <? 10)) eqn:Hs.
  - apply andb_prop in Hs. destruct Hs as [Hlow Hhigh].
    apply Z.leb_le in Hlow. apply Z.ltb_lt in Hhigh.
    rewrite <- (Z2Nat.id n) by lia. apply pad2_parse_small. lia.
  - unfold Py.pad2. rewrite Hs. apply dec_parse.
Qed.

Lemma pad2_width k :
  (k < 100)%nat -> String.length (Py.pad2 (Z.of_nat k)) = 2%nat.
Proof.
  intros Hk. do 100 (destruct k as [| k]; [reflexivity |]). lia.
Qed.

(** X16.  The [:02d] format loses nothing: reading the string back as an
    integer gives the number formatted, so two different season or episode
    numbers never get the same label; and the numbers 0 to 99 are written
    in exactly two characters. *)
Theorem two_digit_format_round_trip :
  (forall n, parse_int (Py.pad2 n) = Some n)
  /\ (forall a b, a <> b -> Py.pad2 a <> Py.pad2 b)
  /\ (forall n, 0 <= n < 100 -> String.length (Py.pad2 n) = 2%nat).
Proof.
  split; [exact pad2_parse | split].
  - intros a b Hne Hab. apply Hne.
    assert (Hs : Some a = Some b)
      by (rewrite <- (pad2_parse a), <- (pad2_parse b), Hab; reflexivity).
    inversion Hs. reflexivity.
  - intros n Hn. rewrite <- (Z2Nat.id n) by lia. apply pad2_width. lia.
Qed.

Lemma two_digit_format_round_trip_witness :
  parse_int (Py.pad2 7) = Some 7
  /\ Py.pad2 1 <> Py.pad2 10
  /\ String.length (Py.pad2 42) = 2%nat.
Proof.
  destruct two_digit_format_round_trip as (Hparse & Hinj & Hwidth).
  split; [apply Hparse | split; [apply Hinj; lia | apply Hwidth; lia]].
Defined.

(** *** The unused formatter *)

(** X17.  [format_media_request_list] gives its caller nothing: for every
    list of requests it returns [None], having requested nothing; the list
    it builds on the way is lost. *)
Theorem format_media_request_list_returns_none E items w :
  format_media_request_list E (JArr items) w = (Ret JNull, w).
Proof.
  unfold format_media_request_list. unfold bind at 1, lift. cbn [Py.iter].
  assert (Hrun : forall xs : list json,
             for_each (fun _ : json => @ret E _ [JObj []]) xs w
             = (Ret (repeat (JObj []) (length xs)), w)).
  { intros xs. induction xs as [| x xs IH]; [reflexivity |].
    cbn [for_each]. unfold bind at 1, ret at 1.
    rewrite (bind_run _ _ _ _ _ IH). reflexivity. }
  rewrite (bind_run _ _ _ _ _ (Hrun items)). reflexivity.
Qed.

(** *** The cost in lookups *)

Section Cost.

Variable E : Env.

(** The slacks allowed: a set of integers with 0, closed under sums. *)
Variable allowed : Z -> Prop.
Hypothesis allowed_zero : allowed 0.
Hypothesis allowed_sum : forall a b, allowed a -> allowed b -> allowed (a + b).

Lemma slack_refl (w : world E) : slack w w 0 = 0.
Proof. unfold slack. lia. Qed.

Lemma slack_trans (w wa wb : world E) n m :
  slack w wb (n + m) = slack w wa n + slack wa wb m.
Proof. unfold slack. lia. Qed.

Lemma for_each_slack {A : Type} (body : A -> M E (list json)) :
  (forall x w out w1,
      body x w = (Ret out, w1) -> allowed (slack w w1 (length out))) ->
  forall xs w out w1,
    for_each body xs w = (Ret out, w1) -> allowed (slack w w1 (length out)).
Proof.
  intros Hbody xs. induction xs as [| x xs IH]; intros w out w1 H.
  - inversion H. subst. cbn [length]. rewrite slack_refl. exact allowed_zero.
  - cbn [for_each] in H.
    apply bind_ret_inv in H. destruct H as (o1 & wa & H1 & H).
    apply bind_ret_inv in H. destruct H as (o2 & wb & H2 & H).
    inversion H. subst. rewrite length_app, (slack_trans w wa w1).
    apply allowed_sum; [exact (Hbody _ _ _ _ H1) | exact (IH _ _ _ H2)].
Qed.

Lemma request_inv url w value w1 :
  make_overseerr_request E url w = (Ret value, w1) ->
  exists s', w1 = requested w url s'.
Proof.
  unfold make_overseerr_request. destruct (http_get E url (fst w)) as [r s'].
  intros H. inversion H. exists s'. reflexivity.
Qed.

Lemma lookups_page (w : world E) url s' :
  is_page_url E url = true ->
  lookups E (snd (requested w url s')) = lookups E (snd w).
Proof.
  intros Hurl. unfold lookups, requested. cbn [snd].
  rewrite filter_app. cbn [filter]. rewrite Hurl. cbn [negb].
  rewrite app_nil_r. reflexivity.
Qed.

Lemma lookups_detail (w : world E) url s' :
  is_page_url E url = false ->
  lookups E (snd (requested w url s')) = S (lookups E (snd w)).
Proof.
  intros Hurl. unfold lookups, requested. cbn [snd].
  rewrite filter_app. cbn [filter]. rewrite Hurl. cbn [negb].
  rewrite length_app. cbn [length]. lia.
Qed.

Lemma request_loop_slack per_result start_date :
  (forall result w out w1,
      per_result start_date result w = (Ret out, w1) ->
      allowed (slack w w1 (length out))) ->
  forall fuel status skip all_results w out w1,
    request_loop E per_result fuel status start_date skip all_results w
    = (Ret out, w1) ->
    is_error_result out
    \/ allowed (slack w w1 (length out) + Z.of_nat (length all_results)).
Proof.
  intros Hper fuel.
  induction fuel as [| fuel IH]; intros status skip acc w out w1 H.
  - discriminate H.
  - cbn [request_loop] in H.
    apply bind_ret_inv in H. destruct H as (response & wa & Hreq & H).
    apply request_inv in Hreq. destruct Hreq as (s' & ->).
    apply bind_ret_inv in H. destruct H as (failed & wb & Hl & H).
    apply lift_ret_inv in Hl. destruct Hl as [_ ->].
    destruct failed.
    + apply bind_ret_inv in H. destruct H as (message & wc & _ & H).
      inversion H. left. exists message. reflexivity.
    + apply bind_ret_inv in H. destruct H as (results & wc & Hl & H).
      apply lift_ret_inv in Hl. destruct Hl as [_ ->].
      apply bind_ret_inv in H. destruct H as (result_list & wd & Hl & H).
      apply lift_ret_inv in Hl. destruct Hl as [_ ->].
      apply bind_ret_inv in H. destruct H as (new_results & we & Hnew & H).
      apply (for_each_slack _ Hper) in Hnew.
      apply bind_ret_inv in H. destruct H as (page_info & wf & Hl & H).
      apply lift_ret_inv in Hl. destruct Hl as [_ ->].
      apply bind_ret_inv in H. destruct H as (pages & wg & Hl & H).
      apply lift_ret_inv in Hl. destruct Hl as [_ ->].
      apply bind_ret_inv in H. destruct H as (last & wh & Hl & H).
      apply lift_ret_inv in Hl. destruct Hl as [_ ->].
      pose proof (lookups_page w (request_url E status skip) s'
                    (request_url_is_page E status skip)) as Hpage.
      destruct last.
      * inversion H. subst. right.
        replace (slack w w1 (length (acc ++ new_results))
                 + Z.of_nat (length acc))
          with (slack (requested w (request_url E status skip) s') w1
                  (length new_results));
          [exact Hnew |].
        unfold slack. rewrite length_app, Hpage. lia.
      * apply IH in H. destruct H as [Herr | Hrest]; [left; exact Herr |].
        right.
        replace (slack w w1 (length out) + Z.of_nat (length acc))
          with (slack (requested w (request_url E status skip) s') we
                  (length new_results)
                + (slack we w1 (length out)
                   + Z.of_nat (length (acc ++ new_results))));
          [apply allowed_sum; assumption |].
        unfold slack. rewrite length_app, Hpage. lia.
Qed.

End Cost.

Lemma movie_result_slack E start_date result w out w1 :
  movie_result E start_date result w = (Ret out, w1) ->
  slack w w1 (length out) = 0.
Proof.
  intros H. unfold movie_result in H.
  apply bind_ret_inv in H. destruct H as (media_info & wa & Hl & H).
  apply lift_ret_inv in Hl. destruct Hl as [_ ->].
  destruct (negb (Py.truthy media_info));
    [inversion H; subst; apply slack_refl |].
  apply bind_ret_inv in H. destruct H as (tmdb & wb & Hl & H).
  apply lift_ret_inv in Hl. destruct Hl as [_ ->].
  destruct (negb (Py.truthy tmdb)); [inversion H; subst; apply slack_refl |].
  apply bind_ret_inv in H. destruct H as (tvdb & wc & Hl & H).
  apply lift_ret_inv in Hl. destruct Hl as [_ ->].
  destruct (Py.truthy tvdb); [inversion H; subst; apply slack_refl |].
  unfold movie_request in H.
  apply bind_ret_inv in H. destruct H as (created_at & wd & Hl & H).
  apply lift_ret_inv in Hl. destruct Hl as [_ ->].
  apply bind_ret_inv in H. destruct H as (too_old & we & Hl & H).
  apply lift_ret_inv in Hl. destruct Hl as [_ ->].
  destruct too_old; [inversion H; subst; apply slack_refl |].
  apply bind_ret_inv in H. destruct H as (movie_id & wf & Hl & H).
  apply lift_ret_inv in Hl. destruct Hl as [_ ->].
  apply bind_ret_inv in H. destruct H as (details & wg & Hreq & H).
  apply request_inv in Hreq. destruct Hreq as (s' & ->).
  apply bind_ret_inv in H. destruct H as (code & wh & Hl & H).
  apply lift_ret_inv in Hl. destruct Hl as [_ ->].
  apply bind_ret_inv in H. destruct H as (availability & wi & Hl & H).
  apply lift_ret_inv in Hl. destruct Hl as [_ ->].
  apply bind_ret_inv in H. destruct H as (title & wj & Hl & H).
  apply lift_ret_inv in Hl. destruct Hl as [_ ->].
  inversion H. subst. unfold slack.
  rewrite (lookups_detail E w _ s' (movie_url_not_page E movie_id)).
  cbn [length]. lia.
Qed.

Lemma season_result_slack E tv_id tv_details availability created_at season
  w out w1 :
  season_result E tv_id tv_details availability created_at season w
  = (Ret out, w1) ->
  slack w w1 (length out) = 0.
Proof.
  intros H. unfold season_result in H.
  apply bind_ret_inv in H. destruct H as (number & wa & Hl & H).
  apply lift_ret_inv in Hl. destruct Hl as [_ ->].
  destruct (Py.eq_zero number); [inversion H; subst; apply slack_refl |].
  apply bind_ret_inv in H. destruct H as (number_str & wb & Hl & H).
  apply lift_ret_inv in Hl. destruct Hl as [_ ->].
  apply bind_ret_inv in H. destruct H as (details & wc & Hreq & H).
  apply request_inv in Hreq. destruct Hreq as (s' & ->).
  apply bind_ret_inv in H. destruct H as (episodes & wd & Hl & H).
  apply lift_ret_inv in Hl. destruct Hl as [_ ->].
  apply bind_ret_inv in H. destruct H as (episode_list & we & Hl & H).
  apply lift_ret_inv in Hl. destruct Hl as [_ ->].
  apply bind_ret_inv in H. destruct H as (episode_details & wf & Hrun & H).
  pose proof (episodes_world E episode_list
                (requested w (season_url E tv_id number) s')) as Hw.
  rewrite Hrun in Hw. cbn [snd] in Hw. subst wf.
  apply bind_ret_inv in H. destruct H as (title & wg & Hl & H).
  apply lift_ret_inv in Hl. destruct Hl as [_ ->].
  inversion H. subst. unfold slack.
  rewrite (lookups_detail E w _ s' (season_url_not_page E tv_id number)).
  cbn [length]. lia.
Qed.

Lemma tv_result_slack E start_date result w out w1 :
  tv_result E start_date result w = (Ret out, w1) ->
  0 <= slack w w1 (length out).
Proof.
  intros H. unfold tv_result in H.
  apply bind_ret_inv in H. destruct H as (media_info & wa & Hl & H).
  apply lift_ret_inv in Hl. destruct Hl as [_ ->].
  destruct (negb (Py.truthy media_info));
    [inversion H; subst; rewrite slack_refl; lia |].
  apply bind_ret_inv in H. destruct H as (tvdb & wb & Hl & H).
  apply lift_ret_inv in Hl. destruct Hl as [_ ->].
  destruct (negb (Py.truthy tvdb));
    [inversion H; subst; rewrite slack_refl; lia |].
  unfold tv_request in H.
  apply bind_ret_inv in H. destruct H as (created_at & wd & Hl & H).
  apply lift_ret_inv in Hl. destruct Hl as [_ ->].
  apply bind_ret_inv in H. destruct H as (too_old & we & Hl & H).
  apply lift_ret_inv in Hl. destruct Hl as [_ ->].
  destruct too_old; [inversion H; subst; rewrite slack_refl; lia |].
  apply bind_ret_inv in H. destruct H as (tv_id & wf & Hl & H).
  apply lift_ret_inv in Hl. destruct Hl as [_ ->].
  apply bind_ret_inv in H. destruct H as (details & wg & Hreq & H).
  apply request_inv in Hreq. destruct Hreq as (s' & ->).
  apply bind_ret_inv in H. destruct H as (code & wh & Hl & H).
  apply lift_ret_inv in Hl. destruct Hl as [_ ->].
  apply bind_ret_inv in H. destruct H as (availability & wi & Hl & H).
  apply lift_ret_inv in Hl. destruct Hl as [_ ->].
  apply bind_ret_inv in H. destruct H as (seasons & wj & Hl & H).
  apply lift_ret_inv in Hl. destruct Hl as [_ ->].
  apply bind_ret_inv in H. destruct H as (season_list & wk & Hl & H).
  apply lift_ret_inv in Hl. destruct Hl as [_ ->].
  apply (for_each_slack E (fun z => z = 0) eq_refl) in H.
  - unfold slack in *.
    rewrite (lookups_detail E w _ s' (tv_url_not_page E tv_id)) in H. lia.
  - intros a b -> ->. reflexivity.
  - intros season v outs v1. apply season_result_slack.
Qed.

(** X18.  No lookup is wasted or shared.  When [get_movie_requests] returns
    summaries, it has made exactly one detail lookup for each of them, and
    none for the requests it dropped or filtered out by date; when
    [get_tv_requests] returns summaries, it has made at least one lookup
    for each of them (one per season reported, and one per show). *)
Theorem lookups_per_summary E status start_date fuel w out w' :
  (get_movie_requests E status start_date fuel w = (Ret out, w') ->
   is_error_result out
   \/ lookups E (snd w') = (lookups E (snd w) + length out)%nat)
  /\ (get_tv_requests E status start_date fuel w = (Ret out, w') ->
      is_error_result out
      \/ (lookups E (snd w) + length out <= lookups E (snd w'))%nat).
Proof.
  unfold get_movie_requests, get_tv_requests. split; intros H.
  - apply (request_loop_slack E (fun z => z = 0) eq_refl) in H.
    + destruct H as [Herr | Hz]; [left; exact Herr | right].
      unfold slack in Hz. cbn [length] in Hz. lia.
    + intros a b -> ->. reflexivity.
    + intros result v outs v1. apply movie_result_slack.
  - apply (request_loop_slack E (fun z => 0 <= z)) in H.
    + destruct H as [Herr | Hz]; [left; exact Herr | right].
      unfold slack in Hz. cbn [length] in Hz. lia.
    + lia.
    + intros a b Ha Hb. lia.
    + intros result v outs v1. apply tv_result_slack.
Qed.

Lemma lookups_per_summary_witness :
  (is_error_result
     [JObj [("title", JStr "Unknown Title");
            ("media_availability", JStr "PROCESSING");
            ("request_date", JStr "2021-06-01T00:00:00.000Z")]]
   \/ lookups Sample.three_pages
        [Sample.page_url "0"; Sample.page_url "20";
         "http://overseerr.local/api/v1/movie/12"; Sample.page_url "40"]
      = (lookups Sample.three_pages [] + 1)%nat)
  /\ (is_error_result
        [JObj [("tv_title", JStr "Show");
               ("tv_title_availability", JStr "UNKNOWN");
               ("tv_season", JStr "S01");
               ("tv_season_availability", JStr "UNKNOWN");
               ("tv_episodes",
                JArr [JObj [("episode_number", JStr "01");
                            ("episode_name", JStr "Pilot")]]);
               ("request_date", JStr "2022-03-01T00:00:00.000Z")]]
      \/ (lookups Sample.shows [] + 1
          <= lookups Sample.shows
               [Sample.page_url "0"; "http://overseerr.local/api/v1/tv/7";
                "http://overseerr.local/api/v1/tv/7/season/1"])%nat).
Proof.
  split.
  - exact (proj1 (lookups_per_summary Sample.three_pages None
                    (Some "2021-01-01T00:00:00.000Z") 3 Sample.start _
                    (snd (get_movie_requests Sample.three_pages None
                            (Some "2021-01-01T00:00:00.000Z") 3
                            Sample.start)))
             eq_refl).
  - exact (proj2 (lookups_per_summary Sample.shows None None 1 Sample.start _
                    (snd (get_tv_requests Sample.shows None None 1
                            Sample.start)))
             eq_refl).
Defined.

(** *** Responses of an unexpected shape *)

(** X19.  The placeholders stand in for absent keys only.  A [title] that
    the movie lookup returns is copied into the summary as it is, whatever
    JSON value it is, [null] included; likewise the [name] of an episode. *)
Theorem present_values_are_copied E :
  (forall start_date fields media availability w details s' title rest,
      Py.dict_get fields "media" = Some (JObj media) ->
      has_id media "tmdbId" = true ->
      has_id media "tvdbId" = false ->
      date_filter start_date (created_at_of fields) = Ret false ->
      media_status_mapping_get (status_of media) = Ret availability ->
      http_get E (movie_url E (id_of media "tmdbId")) (fst w)
        = (inr (JObj details), s') ->
      Py.dict_get details "title" = Some title ->
      for_each (movie_result E start_date) (JObj fields :: rest) w
      = and_then
          [JObj [("title", title);
                 ("media_availability", JStr availability);
                 ("request_date", created_at_of fields)]]
          (for_each (movie_result E start_date) rest
             (requested w (movie_url E (id_of media "tmdbId")) s')))
  /\ (forall fields number name w,
         Py.dict_get fields "episodeNumber" = Some (JNum number) ->
         Py.dict_get fields "name" = Some name ->
         episode_entry E (JObj fields) w
         = (Ret [JObj [("episode_number", JStr (Py.pad2 number));
                       ("episode_name", name)]],
            w)).
Proof.
  split.
  - intros sd fields media availability w details s' title rest
      Hm Ht Hv Hd Ha Hg Htitle.
    apply for_each_cons_run.
    rewrite (movie_result_movie E sd fields media w Hm Ht Hv).
    apply (movie_request_run E sd fields media w _ s' availability _ Hd Ha Hg).
    cbn [response_value Py.get]. unfold Py.field_or. rewrite Htitle.
    reflexivity.
  - intros fields number name w Hn Hname.
    unfold episode_entry, bind, lift, ret. cbn [Py.get].
    unfold Py.field_or. rewrite Hn, Hname. reflexivity.
Qed.

Lemma present_values_are_copied_witness :
  for_each (movie_result null_title None) [Sample.dune_request] Sample.start
  = (Ret [JObj [("title", JNull);
                ("media_availability", JStr "AVAILABLE");
                ("request_date", JStr "2022-03-01T00:00:00.000Z")]],
     (tt, ["http://overseerr.local/api/v1/movie/42"]))
  /\ episode_entry null_title
       (JObj [("episodeNumber", JNum 3); ("name", JNull)]) Sample.start
     = (Ret [JObj [("episode_number", JStr "03"); ("episode_name", JNull)]],
        Sample.start).
Proof.
  destruct (present_values_are_copied null_title) as [Hmovie Hepisode].
  split.
  - apply (Hmovie None
             [("media", JObj [("tmdbId", JNum 42); ("status", JNum 5)]);
              ("createdAt", JStr "2022-03-01T00:00:00.000Z")]
             [("tmdbId", JNum 42); ("status", JNum 5)] "AVAILABLE"
             Sample.start [("title", JNull)] tt JNull []); reflexivity.
  - apply (Hepisode [("episodeNumber", JNum 3); ("name", JNull)] 3 JNull
             Sample.start); reflexivity.
Defined.

(** X20.  For a movie request that passes the date filter: a status sent
    as a string (the digits of a valid code included) or as [null] is not
    a key of the mapping and gives the availability UNKNOWN; a status that
    is a list or an object cannot be hashed for the lookup in the mapping:
    the request raises [TypeError], after its detail lookup was made, and
    the loop over the results ends there. *)
Theorem status_of_another_type E start_date fields media w r s' rest :
  Py.dict_get fields "media" = Some (JObj media) ->
  has_id media "tmdbId" = true ->
  has_id media "tvdbId" = false ->
  date_filter start_date (created_at_of fields) = Ret false ->
  http_get E (movie_url E (id_of media "tmdbId")) (fst w) = (r, s') ->
  ((status_of media = JNull \/ exists s, status_of media = JStr s) ->
   forall title,
     Py.get (response_value r) "title" (JStr "Unknown Title") = Ret title ->
     movie_result E start_date (JObj fields) w
     = (Ret [JObj [("title", title);
                   ("media_availability", JStr "UNKNOWN");
                   ("request_date", created_at_of fields)]],
        requested w (movie_url E (id_of media "tmdbId")) s'))
  /\ (((exists l, status_of media = JArr l)
       \/ (exists f, status_of media = JObj f)) ->
      for_each (movie_result E start_date) (JObj fields :: rest) w
      = (Raise TypeError,
         requested w (movie_url E (id_of media "tmdbId")) s')).
Proof.
  intros Hm Ht Hv Hd Hg. split.
  - intros Hs title Htitle.
    rewrite (movie_result_movie E start_date fields media w Hm Ht Hv).
    apply (movie_request_run E start_date fields media w r s' "UNKNOWN"
             title Hd); try assumption.
    destruct Hs as [-> | (s & ->)]; reflexivity.
  - intros Hs. cbn [for_each]. apply bind_raise_run.
    rewrite (movie_result_movie E start_date fields media w Hm Ht Hv).
    unfold movie_request, get_movie_details, bind, lift. cbn [Py.get].
    fold (created_at_of fields). rewrite Hd.
    fold (id_of media "tmdbId"). rewrite (request_run E _ _ _ _ Hg).
    fold (status_of media).
    destruct Hs as [(l & ->) | (f & ->)]; reflexivity.
Qed.

Lemma status_of_another_type_witness :
  movie_result Sample.movies None
    (Sample.request [("tmdbId", JNum 42); ("status", JStr "5")]
       "2022-03-01T00:00:00.000Z") Sample.start
  = (Ret [JObj [("title", JStr "Dune");
                ("media_availability", JStr "UNKNOWN");
                ("request_date", JStr "2022-03-01T00:00:00.000Z")]],
     (tt, ["http://overseerr.local/api/v1/movie/42"]))
  /\ for_each (movie_result Sample.movies None)
       [Sample.request [("tmdbId", JNum 42); ("status", JArr [JNum 5])]
          "2022-03-01T00:00:00.000Z";
        Sample.dune_request] Sample.start
     = (Raise TypeError, (tt, ["http://overseerr.local/api/v1/movie/42"])).
Proof.
  split.
  - apply (proj1 (status_of_another_type Sample.movies None
                    [("media",
                      JObj [("tmdbId", JNum 42); ("status", JStr "5")]);
                     ("createdAt", JStr "2022-03-01T00:00:00.000Z")]
                    [("tmdbId", JNum 42); ("status", JStr "5")]
                    Sample.start (inr (JObj [("title", JStr "Dune")])) tt []
                    eq_refl eq_refl eq_refl eq_refl eq_refl));
      [right; eexists; reflexivity | reflexivity].
  - apply (proj2 (status_of_another_type Sample.movies None
                    [("media",
                      JObj [("tmdbId", JNum 42); ("status", JArr [JNum 5])]);
                     ("createdAt", JStr "2022-03-01T00:00:00.000Z")]
                    [("tmdbId", JNum 42); ("status", JArr [JNum 5])]
                    Sample.start (inr (JObj [("title", JStr "Dune")])) tt
                    [Sample.dune_request]
                    eq_refl eq_refl eq_refl eq_refl eq_refl)).
    left. eexists. reflexivity.
Defined.

(** X21.  A result of a page that is not an object stops either operation:
    [result.get] raises [AttributeError] before anything is requested for
    it, and the results after it are not processed. *)
Theorem result_not_an_object_raises E start_date result rest w :
  (forall fields, result <> JObj fields) ->
  for_each (movie_result E start_date) (result :: rest) w
  = (Raise AttributeError, w)
  /\ for_each (tv_result E start_date) (result :: rest) w
     = (Raise AttributeError, w).
Proof.
  intros Hnot.
  assert (Hget : Py.get result "media" (JObj []) = Raise AttributeError).
  { destruct result as [| b | z | s | l | f]; try reflexivity.
    exfalso. exact (Hnot f eq_refl). }
  split; cbn [for_each]; apply bind_raise_run;
    unfold movie_result, tv_result, bind, lift; rewrite Hget; reflexivity.
Qed.

Lemma result_not_an_object_raises_witness :
  for_each (movie_result Sample.movies None)
    [JStr "request"; Sample.dune_request] Sample.start
  = (Raise AttributeError, Sample.start)
  /\ for_each (tv_result Sample.movies None)
       [JStr "request"; Sample.dune_request] Sample.start
     = (Raise AttributeError, Sample.start).
Proof.
  exact (result_not_an_object_raises Sample.movies None (JStr "request")
           [Sample.dune_request] Sample.start ltac:(discriminate)).
Defined.

(** X22.  A page that was fetched but whose body is not an object never
    gives a result: whatever JSON value it is, the operation raises. *)
Theorem page_not_an_object_raises E per_result fuel status start_date skip
  all_results w body s' :
  http_get E (request_url E status skip) (fst w) = (inr body, s') ->
  (forall fields, body <> JObj fields) ->
  exists e,
    request_loop E per_result (S fuel) status start_date skip all_results w
    = (Raise e, requested w (request_url E status skip) s').
Proof.
  intros Hg Hnot. cbn [request_loop].
  rewrite (bind_run _ _ _ _ _ (request_run _ _ _ _ _ Hg)).
  cbn [response_value]. unfold bind, lift.
  destruct body as [| b | z | s | l | f];
    try (eexists; reflexivity).
  - cbn [Py.contains]. destruct (index 0 "Request Error" s);
      eexists; reflexivity.
  - cbn [Py.contains]. destruct (existsb (Py.is_str "Request Error") l);
      eexists; reflexivity.
  - exfalso. exact (Hnot f eq_refl).
Qed.

Lemma page_not_an_object_raises_witness :
  exists e,
    get_movie_requests Sample.malformed None None 1 Sample.start
    = (Raise e, (tt, [Sample.page_url "0"])).
Proof.
  exact (page_not_an_object_raises Sample.malformed
           (movie_result Sample.malformed) 0 (validate_status None) None 0 []
           Sample.start (JArr []) tt eq_refl ltac:(discriminate)).
Defined.

(** X23.  A page without [pageInfo], or whose [pageInfo] has no [pages],
    counts as the last one: its page count is read as 0, and the loop
    returns after it with what it has gathered. *)
Theorem page_without_count_is_last E per_result fuel status start_date skip
  all_results w body s' results out w1 :
  0 <= skip ->
  http_get E (request_url E status skip) (fst w) = (inr (JObj body), s') ->
  Py.dict_get body "Request Error" = None ->
  Py.field_or body "results" (JArr []) = JArr results ->
  Py.dict_get body "pageInfo" = None
  \/ (exists page_info,
         Py.dict_get body "pageInfo" = Some (JObj page_info)
         /\ Py.dict_get page_info "pages" = None) ->
  for_each (per_result start_date) results
    (requested w (request_url E status skip) s') = (Ret out, w1) ->
  request_loop E per_result (S fuel) status start_date skip all_results w
  = (Ret (all_results ++ out)%list, w1).
Proof.
  intros Hskip Hg Herr Hres Hinfo Hrun. cbn [request_loop].
  rewrite (bind_run _ _ _ _ _ (request_run _ _ _ _ _ Hg)).
  cbn [response_value]. unfold bind at 1, lift at 1.
  cbn [Py.contains]. rewrite Herr.
  unfold bind at 1, lift at 1. cbn [Py.get]. rewrite Hres.
  unfold bind at 1, lift at 1. cbn [Py.iter].
  rewrite (bind_run _ _ _ _ _ Hrun).
  assert (Hpages : exists page_info,
             Py.field_or body "pageInfo" (JObj []) = JObj page_info
             /\ Py.field_or page_info "pages" (JNum 0) = JNum 0).
  { unfold Py.field_or.
    destruct Hinfo as [Hnone | (page_info & Hsome & Hnone)].
    - exists []. rewrite Hnone. split; reflexivity.
    - exists page_info. rewrite Hsome, Hnone. split; reflexivity. }
  destruct Hpages as (page_info & Hpi & Hp).
  unfold bind at 1, lift at 1. rewrite Hpi.
  unfold bind at 1, lift at 1. cbn [Py.get]. rewrite Hp.
  unfold bind at 1, lift at 1. cbn [Py.le_int].
  assert (Hdiv : 0 <= skip / take) by (apply Z.div_pos; unfold take; lia).
  destruct (Z.leb_spec 0 (skip / take + 1)); [reflexivity | lia].
Qed.

Lemma page_without_count_is_last_witness :
  get_movie_requests no_page_info None None 1 Sample.start
  = (Ret [JObj [("title", JStr "Unknown Title");
                ("media_availability", JStr "AVAILABLE");
                ("request_date", JStr "2022-03-01T00:00:00.000Z")]],
     (tt, [Sample.page_url "0"; "http://overseerr.local/api/v1/movie/42"])).
Proof.
  assert (Hskip : 0 <= 0) by lia.
  exact (page_without_count_is_last no_page_info (movie_result no_page_info)
           0 (validate_status None) None 0 [] Sample.start
           [("results", JArr [Sample.dune_request])] tt
           [Sample.dune_request] _ _ Hskip eq_refl eq_refl eq_refl
           (or_introl eq_refl) eq_refl).
Defined.
